(** * BLE telemetry scripts: codec, session manager and notification handlers

    A shallow embedding of [data_transmission/__main__.py] (full telemetry
    profile) and [ble_speed_test/__main__.py] (timing-only profile).

    - Python objects are records, [None] is [option]'s [None], a [dict] that
      is iterated is an association list in insertion order.
    - [bytearray] is [list byte]; [struct.unpack] is total and returns either
      its tuple or the exception [struct.error].
    - Methods of [BLEManager] run in a state-and-exception monad whose state
      holds the manager's mutable fields, the BLE link, the transport
      operations issued so far and the lines printed so far.
    - The bleak client is an interface ([Transport]); every theorem about the
      manager holds for all its implementations. *)

From Stdlib Require Import ZArith List String Ascii Bool Lia QArith.
From Stdlib Require Import Strings.Byte Numbers.DecimalString.
From Stdlib Require Import Floats.SpecFloat.
Import ListNotations.

Local Open Scope string_scope.
Local Open Scope Z_scope.

(** ** Python values and exceptions *)

(** The exceptions the two scripts can see.  [KeyboardInterrupt] and
    [CancelledError] derive from [BaseException] only; the others derive
    from [Exception]. *)
Inductive exn : Type :=
| StructError (msg : string)
| ValueError (msg : string)
| BleakError (msg : string)
| PyException (msg : string)
| AttributeError (msg : string)
| TimeoutError
| KeyboardInterrupt
| CancelledError.

Definition is_Exception (e : exn) : bool :=
  match e with
  | KeyboardInterrupt | CancelledError => false
  | _ => true
  end.

(** [str(e)] as used by the f-string in [connect]. *)
Definition exn_str (e : exn) : string :=
  match e with
  | StructError m | ValueError m | BleakError m
  | PyException m | AttributeError m => m
  | TimeoutError | KeyboardInterrupt | CancelledError => ""
  end.

(** Result of running a piece of Python: a value, a raised exception, or a
    computation that blocks for ever (the listening loop without a signal). *)
Inductive outcome (A : Type) : Type :=
| Ret (a : A)
| Raise (e : exn)
| Blocked.
Arguments Ret {A} a.
Arguments Raise {A} e.
Arguments Blocked {A}.

(** The values [struct.unpack] can put in its tuple, and tuples themselves. *)
#[warnings="-register-all"] Inductive pyval : Type :=
| PyInt (z : Z)
| PyFloat (f : spec_float)
| PyTuple (items : list pyval).

(** ** struct.unpack for the formats of the scripts *)

Module Struct.

Inductive code : Type := Cf | Ci | CL.

Definition code_of_ascii (c : ascii) : option code :=
  if Ascii.eqb c "f" then Some Cf
  else if Ascii.eqb c "i" then Some Ci
  else if Ascii.eqb c "L" then Some CL
  else None.

Fixpoint codes_of (s : string) : option (list code) :=
  match s with
  | EmptyString => Some []
  | String c s' =>
      match code_of_ascii c, codes_of s' with
      | Some k, Some ks => Some (k :: ks)
      | _, _ => None
      end
  end.

(** Only the little-endian, standard-size formats ["<..."] occur. *)
Definition parse (fmt : string) : option (list code) :=
  match fmt with
  | String c s' => if Ascii.eqb c "<" then codes_of s' else None
  | EmptyString => None
  end.

(** Standard size of every code that occurs: 4 bytes, no padding. *)
Definition code_size (k : code) : nat := 4.

Definition calcsize_codes (ks : list code) : nat :=
  fold_right (fun k n => (code_size k + n)%nat) 0%nat ks.

Definition calcsize (fmt : string) : option nat :=
  option_map calcsize_codes (parse fmt).

Definition byte_val (b : byte) : Z := Z.of_N (Byte.to_N b).

(** Four bytes, least significant first, as an unsigned 32-bit word. *)
Definition le32 (b0 b1 b2 b3 : byte) : Z :=
  Z.lor (byte_val b0)
    (Z.lor (Z.shiftl (byte_val b1) 8)
       (Z.lor (Z.shiftl (byte_val b2) 16) (Z.shiftl (byte_val b3) 24))).

(** Two's complement reading of a 32-bit word. *)
Definition signed32 (w : Z) : Z :=
  if Z.testbit w 31 then w - 2 ^ 32 else w.

(** IEEE 754 binary32 word as the floating-point number it denotes; the
    conversion of a C float to a Python float keeps the value. *)
Definition binary32_of_bits (w : Z) : spec_float :=
  let s := Z.testbit w 31 in
  let e := Z.land (Z.shiftr w 23) 255 in
  let m := Z.land w (2 ^ 23 - 1) in
  if e =? 0 then
    match m with
    | Zpos p => S754_finite s p (-149)
    | _ => S754_zero s
    end
  else if e =? 255 then
    if m =? 0 then S754_infinity s else S754_nan
  else
    match m + 2 ^ 23 with
    | Zpos p => S754_finite s p (e - 150)
    | _ => S754_nan
    end.

Definition field (k : code) (w : Z) : pyval :=
  match k with
  | Cf => PyFloat (binary32_of_bits w)
  | Ci => PyInt (signed32 w)
  | CL => PyInt w
  end.

(** Reads one field per code; the caller has checked the length. *)
Fixpoint fields (ks : list code) (data : list byte) : list pyval :=
  match ks, data with
  | k :: ks', b0 :: b1 :: b2 :: b3 :: data' =>
      field k (le32 b0 b1 b2 b3) :: fields ks' data'
  | _, _ => []
  end.

Definition string_of_nat (n : nat) : string :=
  NilEmpty.string_of_uint (Nat.to_uint n).

Definition size_message (n : nat) : string :=
  "unpack requires a buffer of " ++ string_of_nat n ++ " bytes".

(** [struct.unpack(fmt, data)]: the buffer must have exactly
    [calcsize(fmt)] bytes. *)
Definition unpack (fmt : string) (data : list byte) : outcome (list pyval) :=
  match parse fmt with
  | None => Raise (StructError "bad char in struct format")
  | Some ks =>
      if Nat.eqb (List.length data) (calcsize_codes ks)
      then Ret (fields ks data)
      else Raise (StructError (size_message (calcsize_codes ks)))
  end.

(** The inverse of [le32] on 32-bit words, used to write test buffers. *)
Definition byte_of (z : Z) : byte :=
  match Byte.of_N (Z.to_N (Z.land z 255)) with
  | Some b => b
  | None => Byte.x00
  end.

Definition pack_le32 (w : Z) : list byte :=
  [byte_of w; byte_of (Z.shiftr w 8);
   byte_of (Z.shiftr w 16); byte_of (Z.shiftr w 24)].

End Struct.

(** The rational a finite float denotes. *)
Definition float_value (f : spec_float) : option Q :=
  match f with
  | S754_zero _ => Some 0%Q
  | S754_finite s m e =>
      Some (Qred ((if s then -1 else 1) * inject_Z (Zpos m) * Qpower 2 e))
  | _ => None
  end.

(** [a / b] on two Python ints: the binary64 float nearest to the quotient,
    ties to even.  ([b] is never zero where the scripts divide; clock
    readings fit 64 bits, so the quotient is far from overflowing.) *)
Definition float_of_int (a : Z) : spec_float :=
  match a with
  | Z0 => S754_zero false
  | Zpos p => S754_finite false p 0
  | Zneg p => S754_finite true p 0
  end.

Definition int_true_divide (a b : Z) : spec_float :=
  SFdiv 53 1024 (float_of_int a) (float_of_int b).

(** ** The characteristic classes *)

(** [a, b, c = t]: a tuple of the wrong size is a [ValueError]. *)
Definition unpack_message (n : nat) (tup : list pyval) : string :=
  if Nat.ltb (List.length tup) n
  then "not enough values to unpack (expected " ++ Struct.string_of_nat n
         ++ ", got " ++ Struct.string_of_nat (List.length tup) ++ ")"
  else "too many values to unpack (expected " ++ Struct.string_of_nat n ++ ")".

Definition bind_outcome {A B} (o : outcome A) (k : A -> outcome B) : outcome B :=
  match o with
  | Ret a => k a
  | Raise e => Raise e
  | Blocked => Blocked
  end.

Module AccelerationCharacteristic.
Record t : Type := mk { ax : pyval; ay : pyval; az : pyval }.

Definition read_from (data : list byte) : outcome t :=
  bind_outcome (Struct.unpack "<fff" data) (fun tup =>
    match tup with
    | [x; y; z] => Ret (mk x y z)
    | _ => Raise (ValueError (unpack_message 3 tup))
    end).
End AccelerationCharacteristic.

Module RotationCharacteristic.
Record t : Type := mk { rx : pyval; ry : pyval; rz : pyval }.

Definition read_from (data : list byte) : outcome t :=
  bind_outcome (Struct.unpack "<fff" data) (fun tup =>
    match tup with
    | [x; y; z] => Ret (mk x y z)
    | _ => Raise (ValueError (unpack_message 3 tup))
    end).
End RotationCharacteristic.

Module MagnetometerCharacteristic.
Record t : Type := mk { azimuth : pyval }.

Definition read_from (data : list byte) : outcome t :=
  bind_outcome (Struct.unpack "<i" data) (fun tup =>
    match tup with
    | [a] => Ret (mk a)
    | _ => Raise (ValueError (unpack_message 1 tup))
    end).
End MagnetometerCharacteristic.

Module TemperatureCharacteristic.
Record t : Type := mk { temp : pyval }.

Definition read_from (data : list byte) : outcome t :=
  bind_outcome (Struct.unpack "<f" data) (fun tup =>
    match tup with
    | [x] => Ret (mk x)
    | _ => Raise (ValueError (unpack_message 1 tup))
    end).
End TemperatureCharacteristic.

(** Timing-only profile.  The source binds the whole result of [unpack] to
    [time] (there is no tuple pattern on the left of [=]). *)
Module TimeCharacteristic.
Record t : Type := mk { time : pyval }.

Definition read_from (data : list byte) : outcome t :=
  bind_outcome (Struct.unpack "<L" data) (fun tup =>
    Ret (mk (PyTuple tup))).
End TimeCharacteristic.

(** What [result] holds in the full profile's handler when it is not [None]. *)
Inductive Measurement : Type :=
| Acceleration (c : AccelerationCharacteristic.t)
| Rotation (c : RotationCharacteristic.t)
| Magnetometer (c : MagnetometerCharacteristic.t)
| Temperature (c : TemperatureCharacteristic.t).

(** A line written by [print].  Two lines are kept structured.
    [AllAvailable] is the success line of [connect], a check-mark emoji and
    " All required characteristics are available."; the two scripts store
    the emoji under different bytes (U+2705 in ble_speed_test, its
    re-encoded form in data_transmission), so the bytes are not spelled out.
    [Received] is the handler's line; its text ends with the [repr] of the
    decoded object, which is not spelled out either. *)
Inductive line : Type :=
| Text (s : string)
| AllAvailable
| Received (measurement_type : string) (sender : Z) (result : option Measurement).

(** ** The bleak client as an interface *)

Record BLEDevice : Type := mkDevice { name : option string; address : string }.

(** Awaited operations of [BleakClient], as they are logged. *)
Inductive op : Type :=
| OpConnect
| OpStartNotify (uuid : string)
| OpStopNotify (uuid : string)
| OpDisconnect.

(** An awaited operation changes the link and either returns ([None]) or
    raises.  [tr_is_connected] is the property [is_connected],
    [tr_get_characteristic l u] says whether [services.get_characteristic(u)]
    is not [None], and [tr_wait] is what happens to the link while the
    session sleeps in its listening loop. *)
Class Transport (T : Type) : Type := {
  tr_connect : T -> T * option exn;
  tr_is_connected : T -> bool;
  tr_get_characteristic : T -> string -> bool;
  tr_start_notify : string -> T -> T * option exn;
  tr_stop_notify : string -> T -> T * option exn;
  tr_disconnect : T -> T * option exn;
  tr_wait : T -> T
}.

Definition run_op {T} `{Transport T} (o : op) : T -> T * option exn :=
  match o with
  | OpConnect => tr_connect
  | OpStartNotify u => tr_start_notify u
  | OpStopNotify u => tr_stop_notify u
  | OpDisconnect => tr_disconnect
  end.

(** ** BLEManager *)

Record BLEManager : Type := mkManager {
  target_name : string;
  service_uuid : string;
  characteristic_uuids : list (string * string);
  device : option BLEDevice;
  client : option BLEDevice      (* the [BleakClient] built on that device *)
}.

(** [BLEManager.__init__] *)
Definition new_manager (target service : string)
    (uuids : list (string * string)) : BLEManager :=
  mkManager target service uuids None None.

Record state (T : Type) : Type := mkState {
  self : BLEManager;
  link : T;
  calls : list op;       (* awaited client operations, oldest first *)
  out : list line        (* printed lines, oldest first *)
}.
Arguments mkState {T} _ _ _ _.
Arguments self {T} _.
Arguments link {T} _.
Arguments calls {T} _.
Arguments out {T} _.

Definition M (T A : Type) : Type := state T -> outcome A * state T.

Definition ret {T A} (a : A) : M T A := fun s => (Ret a, s).

Definition raise {T A} (e : exn) : M T A := fun s => (Raise e, s).

Definition bind {T A B} (m : M T A) (k : A -> M T B) : M T B :=
  fun s =>
    match m s with
    | (Ret a, s') => k a s'
    | (Raise e, s') => (Raise e, s')
    | (Blocked, s') => (Blocked, s')
    end.

Notation "x <- m ;; k" := (bind m (fun x => k))
  (at level 61, m at next level, right associativity).
Notation "m ;; k" := (bind m (fun _ => k))
  (at level 61, right associativity).

Definition lift {T A} (o : outcome A) : M T A := fun s => (o, s).

Definition get_self {T} : M T BLEManager := fun s => (Ret (self s), s).

Definition get_link {T} : M T T := fun s => (Ret (link s), s).

Definition print {T} (l : line) : M T unit :=
  fun s => (Ret tt, mkState (self s) (link s) (calls s) (out s ++ [l])).

Definition set_device {T} (d : option BLEDevice) : M T unit :=
  fun s =>
    let m := self s in
    (Ret tt,
     mkState (mkManager (target_name m) (service_uuid m)
                (characteristic_uuids m) d (client m))
       (link s) (calls s) (out s)).

Definition set_client {T} (c : option BLEDevice) : M T unit :=
  fun s =>
    let m := self s in
    (Ret tt,
     mkState (mkManager (target_name m) (service_uuid m)
                (characteristic_uuids m) (device m) c)
       (link s) (calls s) (out s)).

(** [await self.client.<o>(...)]: logged, then the link answers. *)
Definition await {T} `{Transport T} (o : op) : M T unit :=
  fun s =>
    let '(l', r) := run_op o (link s) in
    let s' := mkState (self s) l' (calls s ++ [o]) (out s) in
    match r with
    | None => (Ret tt, s')
    | Some e => (Raise e, s')
    end.

(** [try: body except <caught>: handler] *)
Definition try_except {T A} (body : M T A) (caught : exn -> bool)
    (handler : exn -> M T A) : M T A :=
  fun s =>
    match body s with
    | (Raise e, s') => if caught e then handler e s' else (Raise e, s')
    | r => r
    end.

(** [try: body finally: fin].  An exception of [fin] replaces the pending
    one; a blocked [body] never reaches [fin]. *)
Definition try_finally {T A} (body : M T A) (fin : M T unit) : M T A :=
  fun s =>
    match body s with
    | (Ret a, s') =>
        match fin s' with
        | (Ret _, s'') => (Ret a, s'')
        | (Raise e, s'') => (Raise e, s'')
        | (Blocked, s'') => (Blocked, s'')
        end
    | (Raise e, s') =>
        match fin s' with
        | (Ret _, s'') => (Raise e, s'')
        | (Raise e', s'') => (Raise e', s'')
        | (Blocked, s'') => (Blocked, s'')
        end
    | (Blocked, s') => (Blocked, s')
    end.

Section Manager.
Context {T : Type} `{Transport T}.

Definition newline : string := String (ascii_of_nat 10) EmptyString.

(** [device.name == self.target_name] *)
Definition name_matches (target : string) (d : BLEDevice) : bool :=
  match name d with
  | Some n => String.eqb n target
  | None => false
  end.

(** [detection_callback]: a device that carries the target name is
    announced and put on the queue. *)
Definition detection_callback (target : string) (queue : list BLEDevice)
    (d : BLEDevice) : M T (list BLEDevice) :=
  if name_matches target d then
    print (Text ("Found device: " ++ target ++ " (" ++ address d ++ ")")) ;;
    ret (queue ++ [d])%list
  else ret queue.

(** The scanner calls [detection_callback] on every advertisement it
    receives while it runs; [adverts] are those received before the wait
    below returns. *)
Fixpoint scanner (target : string) (adverts : list BLEDevice)
    (queue : list BLEDevice) : M T (list BLEDevice) :=
  match adverts with
  | [] => ret queue
  | d :: rest =>
      queue' <- detection_callback target queue d ;;
      scanner target rest queue'
  end.

(** [asyncio.wait_for(queue.get(), timeout)]: the first device put on the
    queue, or [TimeoutError] when the queue stayed empty. *)
Definition wait_for_queue (target : string) (adverts : list BLEDevice)
    : M T BLEDevice :=
  queue <- scanner target adverts [] ;;
  match queue with
  | d :: _ => ret d
  | [] => raise TimeoutError
  end.

Definition is_TimeoutError (e : exn) : bool :=
  match e with TimeoutError => true | _ => false end.

Definition scan_for_device (adverts : list BLEDevice) : M T bool :=
  me <- get_self ;;
  print (Text "Scanning for BLE devices...") ;;
  try_except
    (d <- wait_for_queue (target_name me) adverts ;;
     set_device (Some d) ;;
     print (Text "Device successfully found.") ;;
     ret true)
    is_TimeoutError
    (fun _ =>
       print (Text "Device not found within the timeout period.") ;;
       ret false).

(** The [for label, uuid in ...items()] loop of [connect]; its result is
    what [connect] returns from inside or after the loop. *)
Fixpoint connect_check (items : list (string * string)) : M T bool :=
  match items with
  | [] =>
      print AllAvailable ;;
      ret true
  | (label, uuid) :: rest =>
      l <- get_link ;;
      if tr_get_characteristic l uuid then connect_check rest
      else
        print (Text ("Characteristic for " ++ label ++ " (" ++ uuid
                       ++ ") not found in the device services.")) ;;
        await OpDisconnect ;;
        ret false
  end.

Definition connect : M T bool :=
  me <- get_self ;;
  match device me with
  | None =>
      print (Text "No device available to connect to.") ;;
      ret false
  | Some d =>
      set_client (Some d) ;;
      try_except
        (await OpConnect ;;
         print (Text ("Connected to " ++ address d)) ;;
         connect_check (characteristic_uuids me))
        is_Exception
        (fun e =>
           print (Text ("Failed to connect: " ++ exn_str e)) ;;
           ret false)
  end.

(** [self.client.<attr>] when [self.client] is [None]. *)
Definition no_attribute (attr : string) : exn :=
  AttributeError ("'NoneType' object has no attribute '" ++ attr ++ "'").

(** The loop of [start_notifications].  The closure [__inner] handed to the
    client only forwards to the callback with its measurement name; the
    client keeps it, so it does not appear in the manager's state. *)
Fixpoint start_notifications_loop (items : list (string * string)) : M T unit :=
  match items with
  | [] => ret tt
  | (measurement, uuid) :: rest =>
      me <- get_self ;;
      match client me with
      | None => raise (no_attribute "start_notify")
      | Some _ => await (OpStartNotify uuid)
      end ;;
      print (Text ("Notification for " ++ measurement ++ " started.")) ;;
      start_notifications_loop rest
  end.

Definition start_notifications : M T unit :=
  me <- get_self ;;
  start_notifications_loop (characteristic_uuids me).

(** [self.client and self.client.is_connected] *)
Definition client_connected (s : state T) : bool :=
  match client (self s) with
  | Some _ => tr_is_connected (link s)
  | None => false
  end.

Definition get_client_connected : M T bool :=
  fun s => (Ret (client_connected s), s).

Fixpoint stop_notifications_loop (uuids : list string) : M T unit :=
  match uuids with
  | [] => ret tt
  | uuid :: rest =>
      up <- get_client_connected ;;
      (if up then
         await (OpStopNotify uuid) ;;
         print (Text ("Notification for " ++ uuid ++ " stopped."))
       else ret tt) ;;
      stop_notifications_loop rest
  end.

Definition stop_notifications : M T unit :=
  me <- get_self ;;
  stop_notifications_loop (map snd (characteristic_uuids me)).

Definition disconnect : M T unit :=
  up <- get_client_connected ;;
  if up then
    await OpDisconnect ;;
    print (Text "Disconnected from the device.")
  else ret tt.

(** [while True: await asyncio.sleep(1)]: ends only by the exception that
    interrupts a sleep; without one the loop never ends. *)
Definition listen (signal : option exn) : M T unit :=
  fun s =>
    let s' := mkState (self s) (tr_wait (link s)) (calls s) (out s) in
    match signal with
    | Some e => (Raise e, s')
    | None => (Blocked, s')
    end.

Definition is_shutdown_signal (e : exn) : bool :=
  match e with
  | KeyboardInterrupt | CancelledError => true
  | _ => false
  end.

(** The [finally] block of [run]. *)
Definition teardown : M T unit :=
  stop_notifications ;; disconnect.

(** [run]: [adverts] are the advertisements seen while scanning, [signal]
    the exception that ends the listening loop, if any. *)
Definition run (adverts : list BLEDevice) (signal : option exn) : M T unit :=
  found <- scan_for_device adverts ;;
  if negb found then ret tt else
  ok <- connect ;;
  if negb ok then ret tt else
  start_notifications ;;
  print (Text "Listening for BLE messages... Press Ctrl+C to exit.") ;;
  try_finally
    (try_except (listen signal) is_shutdown_signal
       (fun _ => print (Text (newline ++ "Shutdown signal received. Exiting..."))))
    teardown.

End Manager.

(** ** data_transmission: constants, handler and entry point *)

Module DataTransmission.
Definition SERVICE_UUID : string := "19B10000-E8F2-537E-4F6C-D104768A1214".

Definition CHARACTERISTIC_UUIDS : list (string * string) :=
  [ ("acceleration", "19B10001-E8F2-537E-4F6C-D104768A1214");
    ("rotation",     "19B10002-E8F2-537E-4F6C-D104768A1215");
    ("magnetometer", "19B10002-E8F2-537E-4F6C-D104768A1216");
    ("temperature",  "19B10003-E8F2-537E-4F6C-D104768A1217") ].

Definition TARGET_NAME : string := "MonArduinoBLE".

(** The [match] of the handler: [result] stays [None] when no case fits. *)
Definition decode (measurement_type : string) (data : list byte)
    : outcome (option Measurement) :=
  if String.eqb measurement_type "acceleration" then
    bind_outcome (AccelerationCharacteristic.read_from data)
      (fun c => Ret (Some (Acceleration c)))
  else if String.eqb measurement_type "rotation" then
    bind_outcome (RotationCharacteristic.read_from data)
      (fun c => Ret (Some (Rotation c)))
  else if String.eqb measurement_type "magnetometer" then
    bind_outcome (MagnetometerCharacteristic.read_from data)
      (fun c => Ret (Some (Magnetometer c)))
  else if String.eqb measurement_type "temperature" then
    bind_outcome (TemperatureCharacteristic.read_from data)
      (fun c => Ret (Some (Temperature c)))
  else Ret None.

Definition notification_handler {T} (measurement_type : string) (sender : Z)
    (data : list byte) : M T unit :=
  result <- lift (decode measurement_type data) ;;
  print (Received measurement_type sender result).

Definition main {T} `{Transport T} (l : T) (adverts : list BLEDevice)
    (signal : option exn) : outcome unit * state T :=
  run adverts signal
    (mkState (new_manager TARGET_NAME SERVICE_UUID CHARACTERISTIC_UUIDS) l [] []).
End DataTransmission.

(** ** ble_speed_test: constants, globals, handler and entry point *)

Module BleSpeedTest.
Definition SERVICE_UUID : string := "19B10000-E8F2-537E-4F6C-D104768A1214".

Definition CHARACTERISTIC_UUIDS : list (string * string) :=
  [ ("time", "19B10001-E8F2-537E-4F6C-D104768A1214") ].

Definition TARGET_NAME : string := "MonArduinoBLE".

(** The module globals the handler updates. *)
Record globals : Type := mkGlobals {
  last_time : Z;
  first_time : bool;
  times : list spec_float
}.

Definition decode (measurement_type : string) (data : list byte)
    : outcome TimeCharacteristic.t :=
  if String.eqb measurement_type "time" then TimeCharacteristic.read_from data
  else Raise (PyException "Unreachable").

(** [now0] and [now1] are what [time.time_ns()] returns at its two call
    sites, before and after the decoding. *)
Definition notification_handler (now0 now1 : Z) (measurement_type : string)
    (sender : Z) (data : list byte) (g : globals) : outcome unit * globals :=
  let g1 := if first_time g then mkGlobals now0 false (times g) else g in
  match decode measurement_type data with
  | Ret _ =>
      (Ret tt,
       mkGlobals now1 (first_time g1)
         (times g1 ++ [int_true_divide (now1 - last_time g1) (10 ^ 6)]))
  | Raise e => (Raise e, g1)
  | Blocked => (Blocked, g1)
  end.

Definition main {T} `{Transport T} (l : T) (adverts : list BLEDevice)
    (signal : option exn) : outcome unit * state T :=
  run adverts signal
    (mkState (new_manager TARGET_NAME SERVICE_UUID CHARACTERISTIC_UUIDS) l [] []).
End BleSpeedTest.

(** ** A scripted peripheral, to run the manager on concrete scenarios *)

Module Scripted.
(** How the peripheral and the radio answer: which operations raise, which
    characteristics the device exposes, whether the link is lost while the
    session listens. *)
Record peripheral : Type := mkPeripheral {
  connect_error : option exn;
  services : list string;
  start_error : string -> option exn;
  stop_error : string -> option exn;
  disconnect_error : option exn;
  lost_while_listening : bool
}.

Record link : Type := mkLink { behaviour : peripheral; connected : bool }.

Definition set_connected (l : link) (b : bool) : link :=
  mkLink (behaviour l) b.

Definition mem (u : string) (us : list string) : bool :=
  existsb (String.eqb u) us.

#[global] Instance transport : Transport link := {
  tr_connect l :=
    match connect_error (behaviour l) with
    | None => (set_connected l true, None)
    | Some e => (l, Some e)
    end;
  tr_is_connected := connected;
  tr_get_characteristic l u := mem u (services (behaviour l));
  tr_start_notify u l := (l, start_error (behaviour l) u);
  tr_stop_notify u l := (l, stop_error (behaviour l) u);
  tr_disconnect l :=
    match disconnect_error (behaviour l) with
    | None => (set_connected l false, None)
    | Some e => (l, Some e)
    end;
  tr_wait l :=
    if lost_while_listening (behaviour l) then set_connected l false else l
}.

(** A peripheral that exposes [uuids] and never fails. *)
Definition healthy (uuids : list string) : peripheral :=
  mkPeripheral None uuids (fun _ => None) (fun _ => None) None false.

Definition fresh (p : peripheral) : link := mkLink p false.

Definition fails_on (u : string) (e : exn) : string -> option exn :=
  fun u' => if String.eqb u' u then Some e else None.
End Scripted.

Definition arduino : BLEDevice :=
  mkDevice (Some "MonArduinoBLE") "AA:BB:CC:DD:EE:FF".

Definition full_uuids : list string :=
  map snd DataTransmission.CHARACTERISTIC_UUIDS.

(** ** Definitions used to state the properties *)

(** The widths the specification gives per logical name: 12 bytes for the
    two float triples, 4 bytes for every other measurement. *)
Definition width_of (measurement_type : string) : nat :=
  if String.eqb measurement_type "acceleration" then 12
  else if String.eqb measurement_type "rotation" then 12
  else 4.

(** An error that carries both lengths is one from which both can be read
    back, whatever the buffer was. *)
Definition reports_length_mismatch (lengths_of : exn -> option (nat * nat)) : Prop :=
  forall name data,
    In name (map fst DataTransmission.CHARACTERISTIC_UUIDS) ->
    List.length data <> width_of name ->
    exists e,
      DataTransmission.decode name data = Raise e
      /\ lengths_of e = Some (width_of name, List.length data).

Definition short_buffer : list byte := [Byte.x01; Byte.x02; Byte.x03].

Definition long_buffer : list byte :=
  [Byte.x01; Byte.x02; Byte.x03; Byte.x04; Byte.x05].

(** The IEEE 754 binary32 words of 1.0, 2.0 and -1.0, little-endian. *)
Definition triple_buffer : list byte :=
  Struct.pack_le32 0x3F800000 ++ Struct.pack_le32 0x40000000
    ++ Struct.pack_le32 0xBF800000.

Definition raised {A} (o : outcome A) : option exn :=
  match o with
  | Raise e => Some e
  | _ => None
  end.

(** The two deployment profiles and what each one decodes with. *)
Inductive profile : Type := FullTelemetry | TimingOnly.

Definition registry (p : profile) : list (string * string) :=
  match p with
  | FullTelemetry => DataTransmission.CHARACTERISTIC_UUIDS
  | TimingOnly => BleSpeedTest.CHARACTERISTIC_UUIDS
  end.

(** The exception the profile's decoding raises on a buffer, if any. *)
Definition decode_raises (p : profile) (name : string) (data : list byte)
    : option exn :=
  match p with
  | FullTelemetry => raised (DataTransmission.decode name data)
  | TimingOnly => raised (BleSpeedTest.decode name data)
  end.

(** The link after awaited operations that all return; [None] as soon as
    one of them raises. *)
Fixpoint link_after {T} `{Transport T} (ops : list op) (l : T) : option T :=
  match ops with
  | [] => Some l
  | o :: rest =>
      match run_op o l with
      | (l', None) => link_after rest l'
      | (_, Some _) => None
      end
  end.

(** The link after unsubscribing from [uuids] one by one, when the client
    reports a connection before each of them and each of them returns. *)
Fixpoint unsubscribed_all {T} `{Transport T} (uuids : list string) (l : T)
    : option T :=
  match uuids with
  | [] => Some l
  | u :: rest =>
      if tr_is_connected l then
        match tr_stop_notify u l with
        | (l', None) => unsubscribed_all rest l'
        | (_, Some _) => None
        end
      else None
  end.

Definition started_line (item : string * string) : line :=
  Text ("Notification for " ++ fst item ++ " started.").

Definition stopped_line (uuid : string) : line :=
  Text ("Notification for " ++ uuid ++ " stopped.").

Definition not_found_line (label uuid : string) : line :=
  Text ("Characteristic for " ++ label ++ " (" ++ uuid
          ++ ") not found in the device services.").

(** A manager that has found [arduino] and built its client, on a link
    that is up: the situation in which [run] reaches its [finally] block. *)
Definition streaming (uuids : list (string * string)) (p : Scripted.peripheral)
    : state Scripted.link :=
  mkState
    (mkManager "MonArduinoBLE" DataTransmission.SERVICE_UUID uuids
       (Some arduino) (Some arduino))
    (Scripted.mkLink p true) [] [].

(** The manager once [connect] has built the client on [d]. *)
Definition with_client (m : BLEManager) (d : BLEDevice) : BLEManager :=
  mkManager (target_name m) (service_uuid m) (characteristic_uuids m)
    (device m) (Some d).

(** Advertisers that must not be taken for the target. *)
Definition other_device : BLEDevice :=
  mkDevice (Some "monarduinoble") "11:22:33:44:55:66".

Definition unnamed_device : BLEDevice := mkDevice None "77:88:99:AA:BB:CC".

(** The manager once [scan_for_device] has stored [d]. *)
Definition with_device (m : BLEManager) (d : BLEDevice) : BLEManager :=
  mkManager (target_name m) (service_uuid m) (characteristic_uuids m)
    (Some d) (client m).

Definition found_line (target : string) (d : BLEDevice) : line :=
  Text ("Found device: " ++ target ++ " (" ++ address d ++ ")").

(** What a successful scan prints: one line per advertisement that carries
    the target name, between the opening and the closing line. *)
Definition found_lines (target : string) (adverts : list BLEDevice) : list line :=
  Text "Scanning for BLE devices..."
    :: map (found_line target) (filter (name_matches target) adverts)
    ++ [Text "Device successfully found."].

(** What [connect] prints when the [disconnect] it awaits raises. *)
Definition failed_lines (r : option exn) : list line :=
  match r with
  | Some e => if is_Exception e then [Text ("Failed to connect: " ++ exn_str e)] else []
  | None => []
  end.

Definition acceleration_uuid : string := "19B10001-E8F2-537E-4F6C-D104768A1214".
Definition rotation_uuid : string := "19B10002-E8F2-537E-4F6C-D104768A1215".
Definition magnetometer_uuid : string := "19B10002-E8F2-537E-4F6C-D104768A1216".
Definition temperature_uuid : string := "19B10003-E8F2-537E-4F6C-D104768A1217".


Definition refuses_stop (u : string) : Scripted.peripheral :=
  Scripted.mkPeripheral None full_uuids (fun _ => None)
    (Scripted.fails_on u (BleakError "stop_notify failed")) None false.

(** A peripheral without the magnetometer and temperature characteristics. *)
Definition lacks_two : Scripted.peripheral :=
  Scripted.healthy [acceleration_uuid; rotation_uuid].


Definition is_start (o : op) : bool :=
  match o with OpStartNotify _ => true | _ => false end.

Definition is_disconnect (o : op) : bool :=
  match o with OpDisconnect => true | _ => false end.

(** Whether the peripheral behind [l] exposes every entry of a registry. *)
Definition all_present {T} `{Transport T} (l : T)
    (items : list (string * string)) : bool :=
  forallb (fun item => tr_get_characteristic l (snd item)) items.

(** A healthy peripheral whose link is lost while the session listens. *)
Definition goes_away : Scripted.peripheral :=
  Scripted.mkPeripheral None full_uuids (fun _ => None) (fun _ => None) None true.

(** The number four bytes spell, least significant byte first. *)
Definition byte_sum (b0 b1 b2 b3 : byte) : Z :=
  Struct.byte_val b0 + 256 * Struct.byte_val b1
  + 65536 * Struct.byte_val b2 + 16777216 * Struct.byte_val b3.

(** The floats a binary32 word can denote: at most 24 significant bits, an
    exponent between that of the subnormals and that of the largest
    normal number. *)
Definition fits_binary32 (f : spec_float) : Prop :=
  match f with
  | S754_finite _ m e => Zpos m < 2 ^ 24 /\ -149 <= e <= 104
  | _ => True
  end.

(** The logical name a decoded object belongs to. *)
Definition kind_of (m : Measurement) : string :=
  match m with
  | Acceleration _ => "acceleration"
  | Rotation _ => "rotation"
  | Magnetometer _ => "magnetometer"
  | Temperature _ => "temperature"
  end.

(** What [connect] prints when the connection itself raises. *)
Definition connect_failed_lines (e : exn) : list line :=
  if is_Exception e then [Text ("Failed to connect: " ++ exn_str e)] else [].

(** What the listening phase prints when it ends on [e]. *)
Definition shutdown_lines (e : exn) : list line :=
  if is_shutdown_signal e
  then [Text (newline ++ "Shutdown signal received. Exiting...")] else [].

(** The lines of a session up to its listening loop. *)
Definition subscribed_lines (m : BLEManager) (d : BLEDevice) : list line :=
  [Text ("Connected to " ++ address d); AllAvailable]
    ++ map started_line (characteristic_uuids m)
    ++ [Text "Listening for BLE messages... Press Ctrl+C to exit."].

(** A peripheral that advertises but refuses the connection. *)
Definition unreachable_peripheral : Scripted.peripheral :=
  Scripted.mkPeripheral (Some (BleakError "Device not reachable")) full_uuids
    (fun _ => None) (fun _ => None) None false.

(** [subsequence xs ys]: [xs] is [ys] with some elements left out. *)
Inductive subsequence {A : Type} : list A -> list A -> Prop :=
| subsequence_nil : subsequence [] []
| subsequence_skip (y : A) (xs ys : list A) :
    subsequence xs ys -> subsequence xs (y :: ys)
| subsequence_keep (y : A) (xs ys : list A) :
    subsequence xs ys -> subsequence (y :: xs) (y :: ys).

(** The sequences of client operations a run may await, for a registry
    with the identifiers [uuids]: nothing; a connection and the
    disconnection of a failed validation; a connection and subscriptions to a
    prefix of the registry; or a connection, subscriptions to the whole
    registry, unsubscriptions from part of it in registry order and at most
    one disconnection. *)
Definition trace_ok (uuids : list string) (t : list op) : Prop :=
  t = []
  \/ t = [OpConnect; OpDisconnect]
  \/ (exists k, t = OpConnect :: map OpStartNotify (firstn k uuids))
  \/ (exists stops disc,
        subsequence stops uuids
        /\ (disc = [] \/ disc = [OpDisconnect])
        /\ t = (OpConnect :: map OpStartNotify uuids
                ++ map OpStopNotify stops ++ disc)%list).

(** The fields of a manager that [__init__] sets and no method assigns. *)
Definition same_configuration (m m' : BLEManager) : Prop :=
  target_name m' = target_name m
  /\ service_uuid m' = service_uuid m
  /\ characteristic_uuids m' = characteristic_uuids m.

(** A manager as [__init__] leaves it, on a peripheral not yet connected. *)
Definition manager_without_client : state Scripted.link :=
  mkState
    (new_manager DataTransmission.TARGET_NAME DataTransmission.SERVICE_UUID
       DataTransmission.CHARACTERISTIC_UUIDS)
    (Scripted.fresh (Scripted.healthy full_uuids)) [] [].

(** A second implementation of the client: a link that survives a given
    number of unsubscriptions and then reports no connection. *)
Module Fading.
Record link : Type := mkLink { remaining : nat }.

#[global] Instance transport : Transport link := {
  tr_connect l := (l, None);
  tr_is_connected l := negb (Nat.eqb (remaining l) 0);
  tr_get_characteristic _ _ := true;
  tr_start_notify _ l := (l, None);
  tr_stop_notify _ l := (mkLink (Nat.pred (remaining l)), None);
  tr_disconnect l := (mkLink 0, None);
  tr_wait l := l
}.
End Fading.


(** A notification on the timestamp characteristic, with what
    [time.time_ns()] returns at the handler's two call sites. *)
Record notification : Type := mkNotification {
  first_clock : Z;
  second_clock : Z;
  payload : list byte
}.

(** The transport calls the timing-only handler once per notification. *)
Fixpoint deliver (events : list notification) (g : BleSpeedTest.globals)
    : BleSpeedTest.globals :=
  match events with
  | [] => g
  | ev :: rest =>
      deliver rest
        (snd (BleSpeedTest.notification_handler (first_clock ev)
                (second_clock ev) "time" 0 (payload ev) g))
  end.

(** The delays, in milliseconds, between [last] and the second clock
    reading of each notification in turn. *)
Fixpoint gaps (last : Z) (events : list notification) : list spec_float :=
  match events with
  | [] => []
  | ev :: rest =>
      int_true_divide (second_clock ev - last) (10 ^ 6)
        :: gaps (second_clock ev) rest
  end.

(** The clock reading the first recorded delay is measured from. *)
Definition first_reference (g : BleSpeedTest.globals)
    (events : list notification) : Z :=
  match events with
  | ev :: _ => if BleSpeedTest.first_time g then first_clock ev
               else BleSpeedTest.last_time g
  | [] => BleSpeedTest.last_time g
  end.




(** * Properties of the codec *)

Example unpack_time_1 :
  TimeCharacteristic.read_from [Byte.x01; Byte.x00; Byte.x00; Byte.x00]
  = Ret (TimeCharacteristic.mk (PyTuple [PyInt 1])).
Proof. reflexivity. Qed.

Example unpack_azimuth_negative :
  MagnetometerCharacteristic.read_from [Byte.xfe; Byte.xff; Byte.xff; Byte.xff]
  = Ret (MagnetometerCharacteristic.mk (PyInt (-2))).
Proof. reflexivity. Qed.

Example unpack_short_temperature :
  TemperatureCharacteristic.read_from short_buffer
  = Raise (StructError "unpack requires a buffer of 4 bytes").
Proof. reflexivity. Qed.

Example triple_buffer_bytes :
  triple_buffer =
    [Byte.x00; Byte.x00; Byte.x80; Byte.x3f;
     Byte.x00; Byte.x00; Byte.x00; Byte.x40;
     Byte.x00; Byte.x00; Byte.x80; Byte.xbf].
Proof. reflexivity. Qed.

Lemma calcsize_formats :
  Struct.calcsize "<fff" = Some 12%nat
  /\ Struct.calcsize "<i" = Some 4%nat
  /\ Struct.calcsize "<f" = Some 4%nat
  /\ Struct.calcsize "<L" = Some 4%nat.
Proof. repeat split. Qed.

(** [le32] is the little-endian reading: the bytes weigh 1, 2^8, 2^16 and
    2^24, and the word fits 32 bits. *)
Lemma byte_val_range (b : byte) : 0 <= Struct.byte_val b < 256.
Proof.
  unfold Struct.byte_val. pose proof (Byte.to_N_bounded b). lia.
Qed.

Lemma lor_shiftl_add (a b n : Z) :
  0 <= n -> 0 <= a < 2 ^ n ->
  Z.lor a (Z.shiftl b n) = a + b * 2 ^ n.
Proof.
  intros Hn Ha.
  assert (Z.land a (Z.shiftl b n) = 0) as Hdisjoint.
  { apply Z.bits_inj'. intros k Hk.
    rewrite Z.land_spec, Z.bits_0.
    destruct (Z.lt_ge_cases k n) as [Hlt | Hge].
    - rewrite (Z.shiftl_spec_low b n k Hlt). apply andb_false_r.
    - rewrite <- (Z.mod_small a (2 ^ n)) by exact Ha.
      rewrite Z.mod_pow2_bits_high by lia. reflexivity. }
  rewrite <- Z.lxor_lor by exact Hdisjoint.
  rewrite <- Z.add_nocarry_lxor by exact Hdisjoint.
  now rewrite Z.shiftl_mul_pow2.
Qed.

Lemma le32_value (b0 b1 b2 b3 : byte) :
  Struct.le32 b0 b1 b2 b3
  = Struct.byte_val b0 + 256 * Struct.byte_val b1
    + 65536 * Struct.byte_val b2 + 16777216 * Struct.byte_val b3.
Proof.
  pose proof (byte_val_range b0). pose proof (byte_val_range b1).
  pose proof (byte_val_range b2). pose proof (byte_val_range b3).
  unfold Struct.le32.
  rewrite (Z.shiftl_mul_pow2 (Struct.byte_val b1) 8) by lia.
  rewrite (Z.shiftl_mul_pow2 (Struct.byte_val b2) 16) by lia.
  rewrite (lor_shiftl_add (Struct.byte_val b2 * 2 ^ 16) (Struct.byte_val b3) 24)
    by (change (2 ^ 16) with 65536; change (2 ^ 24) with 16777216; lia).
  replace (Struct.byte_val b2 * 2 ^ 16 + Struct.byte_val b3 * 2 ^ 24)
    with ((Struct.byte_val b2 + Struct.byte_val b3 * 256) * 2 ^ 16)
    by (change (2 ^ 16) with 65536; change (2 ^ 24) with 16777216; lia).
  rewrite <- (Z.shiftl_mul_pow2 _ 16) by lia.
  rewrite (lor_shiftl_add (Struct.byte_val b1 * 2 ^ 8) _ 16)
    by (change (2 ^ 8) with 256; change (2 ^ 16) with 65536; lia).
  replace (Struct.byte_val b1 * 2 ^ 8
           + (Struct.byte_val b2 + Struct.byte_val b3 * 256) * 2 ^ 16)
    with ((Struct.byte_val b1 + Struct.byte_val b2 * 256
           + Struct.byte_val b3 * 65536) * 2 ^ 8)
    by (change (2 ^ 8) with 256; change (2 ^ 16) with 65536; lia).
  rewrite <- (Z.shiftl_mul_pow2 _ 8) by lia.
  rewrite (lor_shiftl_add (Struct.byte_val b0) _ 8)
    by (change (2 ^ 8) with 256; lia).
  change (2 ^ 8) with 256. lia.
Qed.

Lemma le32_range (b0 b1 b2 b3 : byte) :
  0 <= Struct.le32 b0 b1 b2 b3 < 2 ^ 32.
Proof.
  rewrite le32_value.
  pose proof (byte_val_range b0). pose proof (byte_val_range b1).
  pose proof (byte_val_range b2). pose proof (byte_val_range b3).
  change (2 ^ 32) with 4294967296. lia.
Qed.

(** [unpack] rejects every buffer whose length is not the size of the format,
    with a message that depends on the format alone. *)
Lemma unpack_wrong_length (fmt : string) (n : nat) (data : list byte) :
  Struct.calcsize fmt = Some n ->
  List.length data <> n ->
  Struct.unpack fmt data = Raise (StructError (Struct.size_message n)).
Proof.
  unfold Struct.calcsize, Struct.unpack.
  destruct (Struct.parse fmt) as [ks|]; simpl; [|discriminate].
  intros E Hlen. injection E as <-.
  apply Nat.eqb_neq in Hlen. now rewrite Hlen.
Qed.

Lemma unpack_right_length (fmt : string) (n : nat) (data : list byte) :
  Struct.calcsize fmt = Some n ->
  List.length data = n ->
  exists tup, Struct.unpack fmt data = Ret tup.
Proof.
  unfold Struct.calcsize, Struct.unpack.
  destruct (Struct.parse fmt) as [ks|]; simpl; [|discriminate].
  intros E Hlen. injection E as <-.
  rewrite Hlen, Nat.eqb_refl. eauto.
Qed.

Lemma registered_full (name : string) :
  In name (map fst DataTransmission.CHARACTERISTIC_UUIDS) ->
  name = "acceleration" \/ name = "rotation"
  \/ name = "magnetometer" \/ name = "temperature".
Proof. simpl. intuition. Qed.

(** Full profile: a registered name with a buffer of the wrong width makes
    the handler's [match] raise [struct.error]. *)
Lemma full_decode_wrong_length (name : string) (data : list byte) :
  In name (map fst DataTransmission.CHARACTERISTIC_UUIDS) ->
  List.length data <> width_of name ->
  DataTransmission.decode name data
  = Raise (StructError (Struct.size_message (width_of name))).
Proof.
  intros Hin Hlen.
  destruct (registered_full name Hin) as [-> | [-> | [-> | ->]]];
    unfold DataTransmission.decode; simpl String.eqb; cbv iota;
    [ unfold AccelerationCharacteristic.read_from
    | unfold RotationCharacteristic.read_from
    | unfold MagnetometerCharacteristic.read_from
    | unfold TemperatureCharacteristic.read_from ];
    (erewrite unpack_wrong_length; [reflexivity | reflexivity | exact Hlen]).
Qed.

Lemma time_decode_wrong_length (data : list byte) :
  List.length data <> 4%nat ->
  BleSpeedTest.decode "time" data
  = Raise (StructError (Struct.size_message 4)).
Proof.
  intros Hlen. unfold BleSpeedTest.decode, TimeCharacteristic.read_from.
  simpl String.eqb. cbv iota.
  erewrite unpack_wrong_length; [reflexivity | reflexivity | exact Hlen].
Qed.

(** C4 (as amended).  For every registered logical name of either profile and
    every buffer whose length differs from the width fixed for that name (12
    bytes for the float triples, 4 bytes for the integer, the single float and
    the timestamp), decoding raises [struct.error]; its message names the
    expected width and nothing of the buffer is decoded. *)
Theorem decode_length_mismatch (p : profile) (name : string) (data : list byte) :
  In name (map fst (registry p)) ->
  List.length data <> width_of name ->
  decode_raises p name data
  = Some (StructError (Struct.size_message (width_of name))).
Proof.
  destruct p; simpl registry; intros Hin Hlen; unfold decode_raises.
  - now rewrite full_decode_wrong_length.
  - destruct Hin as [<- | []]. now rewrite time_decode_wrong_length.
Qed.

Lemma decode_length_mismatch_witness :
  decode_raises FullTelemetry "rotation" long_buffer
  = Some (StructError "unpack requires a buffer of 12 bytes").
Proof.
  apply (decode_length_mismatch FullTelemetry "rotation" long_buffer).
  - simpl. auto.
  - vm_compute. discriminate.
Defined.

(** C4 (as stated) fails: a buffer of 3 bytes and one of 5 bytes raise the
    very same exception on the temperature characteristic, so the actual
    length cannot be read back from the error. *)
Lemma length_mismatch_hides_actual_length :
  DataTransmission.decode "temperature" short_buffer
  = DataTransmission.decode "temperature" long_buffer
  /\ ~ exists lengths_of, reports_length_mismatch lengths_of.
Proof.
  split; [reflexivity|].
  intros [lengths_of Hrep].
  destruct (Hrep "temperature" short_buffer) as (e1 & He1 & Hl1);
    [simpl; auto | vm_compute; discriminate |].
  destruct (Hrep "temperature" long_buffer) as (e2 & He2 & Hl2);
    [simpl; auto | vm_compute; discriminate |].
  assert (e1 = e2) as -> by (cbv in He1, He2; congruence).
  rewrite Hl1 in Hl2. discriminate.
Qed.

(** Buffers of the right width are decoded, so the length check is the only
    way decoding of a registered name fails. *)
Lemma full_decode_right_length (name : string) (data : list byte) :
  In name (map fst DataTransmission.CHARACTERISTIC_UUIDS) ->
  List.length data = width_of name ->
  exists m, DataTransmission.decode name data = Ret (Some m).
Proof.
  intros Hin Hlen.
  destruct (registered_full name Hin) as [-> | [-> | [-> | ->]]];
    simpl in Hlen;
    repeat (destruct data as [|? data]; try discriminate Hlen);
    eexists; reflexivity.
Qed.

(** C5.  On the timing-only profile a 4-byte buffer is decoded by binding the
    whole result of [unpack] to [time]: the field holds the one-element
    tuple around the integer, where the sibling decoder of the magnetometer
    holds the integer itself. *)
Theorem time_read_from_stores_tuple :
  TimeCharacteristic.read_from [Byte.x01; Byte.x00; Byte.x00; Byte.x00]
  = Ret (TimeCharacteristic.mk (PyTuple [PyInt 1]))
  /\ MagnetometerCharacteristic.read_from [Byte.x01; Byte.x00; Byte.x00; Byte.x00]
     = Ret (MagnetometerCharacteristic.mk (PyInt 1)).
Proof. split; reflexivity. Qed.

(** The same on every 4-byte buffer: the field is never the bare integer. *)
Lemma time_field_is_never_scalar (b0 b1 b2 b3 : byte) :
  TimeCharacteristic.read_from [b0; b1; b2; b3]
  = Ret (TimeCharacteristic.mk (PyTuple [PyInt (Struct.le32 b0 b1 b2 b3)]))
  /\ forall z, TimeCharacteristic.read_from [b0; b1; b2; b3]
               <> Ret (TimeCharacteristic.mk (PyInt z)).
Proof.
  split; [reflexivity|]. intros z Heq. discriminate Heq.
Qed.

(** C9.  The 12-byte little-endian buffer of the floats 1.0, 2.0 and -1.0
    decodes on the acceleration characteristic to a measurement whose fields
    [ax], [ay], [az] are floats of value 1, 2 and -1, in that order.
    [read_from] is a function of the buffer alone: run inside the manager's
    monad it leaves the state as it found it. *)
Theorem acceleration_decodes_triple :
  exists fx fy fz,
    AccelerationCharacteristic.read_from triple_buffer
    = Ret (AccelerationCharacteristic.mk (PyFloat fx) (PyFloat fy) (PyFloat fz))
    /\ float_value fx = Some (1 # 1)%Q
    /\ float_value fy = Some (2 # 1)%Q
    /\ float_value fz = Some (-1 # 1)%Q
    /\ forall (T : Type) (s : state T),
         snd (lift (AccelerationCharacteristic.read_from triple_buffer) s) = s.
Proof.
  do 3 eexists. split; [reflexivity|].
  repeat split.
Qed.

(** * Properties of the manager *)

Ltac monad_unfold :=
  unfold bind, ret, raise, print, get_self, get_link, set_device, set_client,
    await, lift, try_except, try_finally, get_client_connected in *.

(** The monad laws, pointwise in the state. *)
Lemma bind_ret_l {T A B : Type} (a : A) (k : A -> M T B) (s : state T) :
  (x <- ret a ;; k x) s = k a s.
Proof. reflexivity. Qed.

Lemma bind_ret_r {T A : Type} (m : M T A) (s : state T) :
  (x <- m ;; ret x) s = m s.
Proof.
  unfold bind, ret. destruct (m s) as [[a | e |] s']; reflexivity.
Qed.

Lemma bind_assoc {T A B C : Type} (m : M T A) (f : A -> M T B)
    (g : B -> M T C) (s : state T) :
  (y <- (x <- m ;; f x) ;; g y) s = (x <- m ;; y <- f x ;; g y) s.
Proof.
  unfold bind. destruct (m s) as [[a | e |] s']; reflexivity.
Qed.

(** A [finally] block runs whether its body returns or raises. *)
Lemma try_finally_runs_fin {T A : Type} (body : M T A) (fin : M T unit)
    (s : state T) :
  fst (body s) <> Blocked ->
  snd (try_finally body fin s) = snd (fin (snd (body s))).
Proof.
  unfold try_finally. destruct (body s) as [[a | e |] s']; simpl.
  - intros _. destruct (fin s') as [[[] | e' |] s'']; reflexivity.
  - intros _. destruct (fin s') as [[[] | e' |] s'']; reflexivity.
  - congruence.
Qed.

Section ManagerFacts.
Context {T : Type} `{Transport T}.

(** *** Scanning *)

Lemma scanner_queue (target : string) (adverts queue : list BLEDevice)
    (s : state T) :
  scanner target adverts queue s
  = (Ret (queue ++ filter (name_matches target) adverts)%list,
     mkState (self s) (link s) (calls s)
       (out s ++ map (found_line target) (filter (name_matches target) adverts))).
Proof.
  revert queue s. induction adverts as [|d rest IH]; intros queue s; simpl.
  - rewrite !app_nil_r. now destruct s.
  - unfold bind, detection_callback.
    destruct (name_matches target d); simpl.
    + unfold bind, print, ret. simpl. rewrite IH. simpl.
      unfold found_line. now rewrite <- !app_assoc.
    + unfold ret. now rewrite IH.
Qed.

Lemma find_filter {A : Type} (f : A -> bool) (l : list A) :
  find f l = hd_error (filter f l).
Proof.
  induction l as [|x l IH]; simpl; [reflexivity|].
  destruct (f x); [reflexivity | exact IH].
Qed.

Lemma filter_none {A : Type} (f : A -> bool) (l : list A) :
  (forall x, In x l -> f x = false) -> filter f l = [].
Proof.
  induction l as [|x l IH]; simpl; intros Hno; [reflexivity|].
  rewrite (Hno x) by (left; reflexivity).
  apply IH. intros y Hy. apply Hno. now right.
Qed.

Lemma wait_for_queue_timeout (target : string) (adverts : list BLEDevice)
    (s : state T) :
  (forall d, In d adverts -> name_matches target d = false) ->
  wait_for_queue target adverts s = (Raise TimeoutError, s).
Proof.
  intros Hno. unfold wait_for_queue, bind. rewrite scanner_queue.
  rewrite (filter_none _ _ Hno). simpl. rewrite app_nil_r. now destruct s.
Qed.

Lemma wait_for_queue_found (target : string) (adverts : list BLEDevice)
    (d : BLEDevice) (s : state T) :
  find (name_matches target) adverts = Some d ->
  wait_for_queue target adverts s
  = (Ret d,
     mkState (self s) (link s) (calls s)
       (out s ++ map (found_line target) (filter (name_matches target) adverts))).
Proof.
  intros Hfind. unfold wait_for_queue, bind. rewrite scanner_queue.
  rewrite find_filter in Hfind. simpl.
  destruct (filter (name_matches target) adverts) as [|d0 rest];
    [discriminate Hfind|].
  injection Hfind as ->. reflexivity.
Qed.

Lemma scan_timeout (adverts : list BLEDevice) (s : state T) :
  (forall d, In d adverts -> name_matches (target_name (self s)) d = false) ->
  scan_for_device adverts s
  = (Ret false,
     mkState (self s) (link s) (calls s)
       (out s ++ [Text "Scanning for BLE devices...";
                  Text "Device not found within the timeout period."])).
Proof.
  intros Hno. unfold scan_for_device. monad_unfold. simpl.
  rewrite wait_for_queue_timeout by exact Hno. simpl.
  now rewrite <- app_assoc.
Qed.

Lemma scan_found (adverts : list BLEDevice) (d : BLEDevice) (s : state T) :
  find (name_matches (target_name (self s))) adverts = Some d ->
  scan_for_device adverts s
  = (Ret true,
     mkState
       (mkManager (target_name (self s)) (service_uuid (self s))
          (characteristic_uuids (self s)) (Some d) (client (self s)))
       (link s) (calls s)
       (out s ++ found_lines (target_name (self s)) adverts)).
Proof.
  intros Hfind. unfold scan_for_device. monad_unfold. simpl.
  rewrite (wait_for_queue_found _ _ d) by exact Hfind. simpl.
  unfold found_lines. rewrite <- !app_assoc. reflexivity.
Qed.

(** *** The validation loop of [connect] *)

Lemma connect_check_all_present (items : list (string * string)) (s : state T) :
  (forall u, In u (map snd items) -> tr_get_characteristic (link s) u = true) ->
  connect_check items s
  = (Ret true,
     mkState (self s) (link s) (calls s)
       (out s ++ [AllAvailable])).
Proof.
  induction items as [|[label uuid] rest IH]; intros Hall; simpl.
  - reflexivity.
  - monad_unfold. rewrite (Hall uuid) by (left; reflexivity).
    apply IH. intros u Hu. apply Hall. now right.
Qed.

Lemma connect_check_first_missing (pre post : list (string * string))
    (label uuid : string) (s : state T) :
  (forall u, In u (map snd pre) -> tr_get_characteristic (link s) u = true) ->
  tr_get_characteristic (link s) uuid = false ->
  connect_check (pre ++ (label, uuid) :: post) s
  = (match snd (tr_disconnect (link s)) with
     | None => Ret false
     | Some e => Raise e
     end,
     mkState (self s) (fst (tr_disconnect (link s)))
       (calls s ++ [OpDisconnect])
       (out s ++ [not_found_line label uuid])).
Proof.
  induction pre as [|[l0 u0] pre IH]; intros Hpre Hmiss; simpl.
  - monad_unfold. rewrite Hmiss. simpl.
    destruct (tr_disconnect (link s)) as [l' [e|]]; reflexivity.
  - monad_unfold. rewrite (Hpre u0) by (left; reflexivity).
    apply IH; [|exact Hmiss]. intros u Hu. apply Hpre. now right.
Qed.

(** *** The subscription loop *)

Lemma start_loop_all_ok (items : list (string * string)) (s : state T) (l' : T) :
  client (self s) <> None ->
  link_after (map OpStartNotify (map snd items)) (link s) = Some l' ->
  start_notifications_loop items s
  = (Ret tt,
     mkState (self s) l' (calls s ++ map OpStartNotify (map snd items))
       (out s ++ map started_line items)).
Proof.
  revert s. induction items as [|[m u] rest IH]; intros s Hc Hl; simpl in *.
  - injection Hl as <-. rewrite !app_nil_r. now destruct s.
  - monad_unfold. destruct (client (self s)) eqn:Ec; [|congruence].
    simpl. destruct (tr_start_notify u (link s)) as [l1 [e|]]; [discriminate|].
    simpl. rewrite IH; simpl; try assumption; [|now rewrite Ec].
    now rewrite <- !app_assoc.
Qed.


(** *** The unsubscription loop and [disconnect] *)

Lemma stop_loop_all_ok (uuids : list string) (s : state T) (l' : T) :
  client (self s) <> None ->
  unsubscribed_all uuids (link s) = Some l' ->
  stop_notifications_loop uuids s
  = (Ret tt,
     mkState (self s) l' (calls s ++ map OpStopNotify uuids)
       (out s ++ map stopped_line uuids)).
Proof.
  revert s. induction uuids as [|u rest IH]; intros s Hc Hl; simpl in *.
  - injection Hl as <-. rewrite !app_nil_r. now destruct s.
  - monad_unfold. unfold client_connected.
    destruct (client (self s)) eqn:Ec; [|congruence].
    destruct (tr_is_connected (link s)); [|discriminate].
    simpl. destruct (tr_stop_notify u (link s)) as [l1 [e|]]; [discriminate|].
    simpl. rewrite IH; simpl; try assumption; [|now rewrite Ec].
    now rewrite <- !app_assoc.
Qed.


(** With no client, or a client that reports no connection, the loop awaits
    nothing at all. *)
Lemma stop_loop_not_connected (uuids : list string) (s : state T) :
  client_connected s = false ->
  stop_notifications_loop uuids s = (Ret tt, s).
Proof.
  intros Hdown. induction uuids as [|u rest IH]; simpl.
  - reflexivity.
  - monad_unfold. rewrite Hdown. exact IH.
Qed.

Lemma disconnect_not_connected (s : state T) :
  client_connected s = false ->
  disconnect s = (Ret tt, s).
Proof.
  intros Hdown. unfold disconnect. monad_unfold. now rewrite Hdown.
Qed.

(** A [disconnect] that returns leaves a manager whose guard is false,
    provided the client reports no connection after a successful
    disconnection. *)
Lemma disconnect_returns_down (s s' : state T) :
  (forall l l', tr_disconnect l = (l', None) -> tr_is_connected l' = false) ->
  disconnect s = (Ret tt, s') ->
  client_connected s' = false.
Proof.
  intros Hlaw. unfold disconnect. monad_unfold.
  destruct (client_connected s) eqn:Eup.
  - simpl. destruct (tr_disconnect (link s)) as [l' [e|]] eqn:Ed; [discriminate|].
    intros [= <-]. unfold client_connected. simpl.
    destruct (client (self s)); [|reflexivity].
    exact (Hlaw _ _ Ed).
  - intros [= <-]. exact Eup.
Qed.

(** *** [connect] *)

Lemma connect_validated (s : state T) (d : BLEDevice) (l1 : T) :
  device (self s) = Some d ->
  tr_connect (link s) = (l1, None) ->
  (forall u, In u (map snd (characteristic_uuids (self s))) ->
             tr_get_characteristic l1 u = true) ->
  connect s
  = (Ret true,
     mkState (with_client (self s) d) l1 (calls s ++ [OpConnect])
       (out s ++ [Text ("Connected to " ++ address d); AllAvailable])).
Proof.
  intros Hd Hc Hall. unfold connect. monad_unfold. simpl.
  rewrite Hd. simpl. rewrite Hc. simpl.
  rewrite connect_check_all_present by exact Hall. simpl.
  unfold with_client. now rewrite <- !app_assoc.
Qed.

Lemma connect_missing (s : state T) (d : BLEDevice) (l1 : T)
    (pre post : list (string * string)) (label uuid : string) :
  device (self s) = Some d ->
  tr_connect (link s) = (l1, None) ->
  characteristic_uuids (self s) = (pre ++ (label, uuid) :: post)%list ->
  (forall u, In u (map snd pre) -> tr_get_characteristic l1 u = true) ->
  tr_get_characteristic l1 uuid = false ->
  connect s
  = (match snd (tr_disconnect l1) with
     | Some e => if is_Exception e then Ret false else Raise e
     | None => Ret false
     end,
     mkState (with_client (self s) d) (fst (tr_disconnect l1))
       (calls s ++ [OpConnect; OpDisconnect])
       (out s ++ [Text ("Connected to " ++ address d);
                  not_found_line label uuid]
          ++ match snd (tr_disconnect l1) with
             | Some e =>
                 if is_Exception e
                 then [Text ("Failed to connect: " ++ exn_str e)] else []
             | None => []
             end)).
Proof.
  intros Hd Hc Hreg Hpre Hmiss. unfold connect. monad_unfold. simpl.
  rewrite Hd. simpl. rewrite Hc. simpl. rewrite Hreg.
  rewrite connect_check_first_missing by assumption. simpl.
  unfold with_client. rewrite Hreg.
  destruct (tr_disconnect l1) as [l2 [e|]]; simpl.
  - destruct (is_Exception e); simpl; rewrite <- ?app_assoc; simpl;
      rewrite ?app_nil_r; reflexivity.
  - rewrite <- ?app_assoc. simpl. rewrite ?app_nil_r. reflexivity.
Qed.

End ManagerFacts.

(** A whole session on a healthy peripheral: four subscriptions in registry
    order, then, on the operator's interrupt, four unsubscriptions in the same
    order and the disconnection. *)
Example healthy_session :
  let r := DataTransmission.main (Scripted.fresh (Scripted.healthy full_uuids))
             [other_device; arduino] (Some KeyboardInterrupt) in
  fst r = Ret tt
  /\ calls (snd r)
     = (OpConnect :: map OpStartNotify full_uuids
          ++ map OpStopNotify full_uuids ++ [OpDisconnect])%list.
Proof. split; reflexivity. Qed.

(** Without a signal the session stays in its listening loop. *)
Example session_without_signal_blocks :
  let r := DataTransmission.main (Scripted.fresh (Scripted.healthy full_uuids))
             [arduino] None in
  fst r = Blocked
  /\ calls (snd r) = (OpConnect :: map OpStartNotify full_uuids)%list.
Proof. split; reflexivity. Qed.

(** When the link was lost while listening, the guards of the teardown are
    false and it awaits nothing. *)
Example lost_link_session :
  let r := DataTransmission.main (Scripted.fresh goes_away) [arduino]
             (Some CancelledError) in
  fst r = Ret tt
  /\ calls (snd r) = (OpConnect :: map OpStartNotify full_uuids)%list.
Proof. split; reflexivity. Qed.

(** An exception that is no shutdown signal still goes through the
    teardown and is raised afterwards. *)
Example other_exception_session :
  let r := DataTransmission.main (Scripted.fresh (Scripted.healthy full_uuids))
             [arduino] (Some (BleakError "boom")) in
  fst r = Raise (BleakError "boom")
  /\ filter is_disconnect (calls (snd r)) = [OpDisconnect].
Proof. split; reflexivity. Qed.

(** C10.  [connect] on a manager whose [device] is [None] returns [False] at
    once: the manager's fields (its [client] among them), the link and the
    list of awaited transport operations are what they were; one line is
    printed. *)
Theorem connect_without_device {T : Type} `{Transport T} (s : state T) :
  device (self s) = None ->
  connect s
  = (Ret false,
     mkState (self s) (link s) (calls s)
       (out s ++ [Text "No device available to connect to."]))
  /\ (client (self s) = None -> client (self (snd (connect s))) = None).
Proof.
  intros Hd.
  assert (connect s
          = (Ret false,
             mkState (self s) (link s) (calls s)
               (out s ++ [Text "No device available to connect to."]))) as E.
  { unfold connect. monad_unfold. simpl. now rewrite Hd. }
  split; [exact E|]. rewrite E. simpl. auto.
Qed.

Lemma connect_without_device_witness :
  let s := mkState
             (new_manager "MonArduinoBLE" DataTransmission.SERVICE_UUID
                DataTransmission.CHARACTERISTIC_UUIDS)
             (Scripted.fresh (Scripted.healthy full_uuids)) [] [] in
  fst (connect s) = Ret false
  /\ calls (snd (connect s)) = []
  /\ client (self (snd (connect s))) = None.
Proof.
  intros s.
  destruct (connect_without_device s) as [E Hc]; [reflexivity|].
  rewrite E. simpl. auto.
Defined.

(** C7 (as amended).  When none of the advertisements received before the
    discovery timeout carries exactly the target name, [run] returns
    normally, that is with [None], after printing that the device was not
    found; no transport operation is awaited, so no connection is
    attempted, and neither the manager nor the link changes. *)
Theorem discovery_timeout_ends_run {T : Type} `{Transport T} (s : state T)
    (adverts : list BLEDevice) (signal : option exn) :
  (forall d, In d adverts -> name_matches (target_name (self s)) d = false) ->
  run adverts signal s
  = (Ret tt,
     mkState (self s) (link s) (calls s)
       (out s ++ [Text "Scanning for BLE devices...";
                  Text "Device not found within the timeout period."])).
Proof.
  intros Hno. unfold run, bind.
  rewrite scan_timeout by exact Hno. reflexivity.
Qed.

Lemma discovery_timeout_ends_run_witness :
  let r := DataTransmission.main (Scripted.fresh (Scripted.healthy full_uuids))
             [other_device; unnamed_device] (Some KeyboardInterrupt) in
  fst r = Ret tt /\ calls (snd r) = [] /\ client (self (snd r)) = None.
Proof.
  intros r. subst r. unfold DataTransmission.main.
  rewrite discovery_timeout_ends_run.
  - simpl. auto.
  - simpl. intros d [<- | [<- | []]]; reflexivity.
Defined.

(** C7 (as stated) fails: the result of a [run] that timed out in discovery
    is the plain [None] that a session which streamed and was interrupted
    returns; no failure is raised or returned to the caller. *)
Lemma discovery_timeout_not_surfaced :
  let l := Scripted.fresh (Scripted.healthy full_uuids) in
  fst (DataTransmission.main l [] (Some KeyboardInterrupt)) = Ret tt
  /\ fst (DataTransmission.main l [] (Some KeyboardInterrupt))
     = fst (DataTransmission.main l [arduino] (Some KeyboardInterrupt))
  /\ ~ exists e, fst (DataTransmission.main l [] (Some KeyboardInterrupt)) = Raise e.
Proof.
  cbv zeta. repeat split; try reflexivity.
  intros [e He]. vm_compute in He. discriminate He.
Qed.

(** The run up to the first missing characteristic, with the registry
    split around it. *)
Lemma run_aborts_at_first_missing {T : Type} `{Transport T}
    (s : state T) (adverts : list BLEDevice) (signal : option exn)
    (d : BLEDevice) (l1 : T) (pre post : list (string * string))
    (label uuid : string) :
  find (name_matches (target_name (self s))) adverts = Some d ->
  tr_connect (link s) = (l1, None) ->
  characteristic_uuids (self s) = (pre ++ (label, uuid) :: post)%list ->
  (forall u, In u (map snd pre) -> tr_get_characteristic l1 u = true) ->
  tr_get_characteristic l1 uuid = false ->
  run adverts signal s
  = (match snd (tr_disconnect l1) with
     | Some e => if is_Exception e then Ret tt else Raise e
     | None => Ret tt
     end,
     mkState (with_client (with_device (self s) d) d) (fst (tr_disconnect l1))
       (calls s ++ [OpConnect; OpDisconnect])
       (out (snd (scan_for_device adverts s))
          ++ [Text ("Connected to " ++ address d); not_found_line label uuid]
          ++ failed_lines (snd (tr_disconnect l1)))).
Proof.
  intros Hfind Hconn Hreg Hpre Hmiss. unfold run, bind.
  rewrite (scan_found _ d) by exact Hfind. cbn [negb fst snd out]. cbv beta iota.
  erewrite connect_missing; simpl; eauto.
  unfold with_device, with_client, failed_lines. simpl.
  destruct (tr_disconnect l1) as [l2 [e|]]; simpl;
    [destruct (is_Exception e); simpl|];
    rewrite <- ?app_assoc; reflexivity.
Qed.

(** A registry with a missing entry has a first missing entry. *)
Lemma first_missing_split {T : Type} `{Transport T} (l : T)
    (items : list (string * string)) :
  all_present l items = false ->
  exists pre label uuid post,
    items = (pre ++ (label, uuid) :: post)%list
    /\ (forall u, In u (map snd pre) -> tr_get_characteristic l u = true)
    /\ tr_get_characteristic l uuid = false.
Proof.
  unfold all_present.
  induction items as [|[label uuid] rest IH]; simpl; [discriminate|].
  destruct (tr_get_characteristic l uuid) eqn:E; simpl.
  - intros Hrest. destruct (IH Hrest) as (pre & la & u & post & -> & Hpre & Hu).
    exists ((label, uuid) :: pre), la, u, post.
    split; [reflexivity|]. split; [|exact Hu].
    simpl. intros u' [<- | Hin]; auto.
  - intros _. exists [], label, uuid, rest.
    split; [reflexivity|]. split; [|exact E].
    simpl. tauto.
Qed.

(** C6 (as amended).  When the device is found and the connection succeeds
    but the peripheral lacks at least one required characteristic, the
    entries are looked up in registry order up to the first missing one; right
    after the lines of the scan, [run] prints that it is connected and a line
    naming that entry, awaits [disconnect] and returns [None] (a
    disconnection that raises an [Exception] is reported on one more line;
    any other exception is raised).  The awaited operations of the whole run
    are the connection and that disconnection, so no subscription is
    attempted. *)
Theorem missing_characteristic_aborts_run {T : Type} `{Transport T}
    (s : state T) (adverts : list BLEDevice) (signal : option exn)
    (d : BLEDevice) (l1 : T) :
  find (name_matches (target_name (self s))) adverts = Some d ->
  tr_connect (link s) = (l1, None) ->
  all_present l1 (characteristic_uuids (self s)) = false ->
  exists pre label uuid post,
    characteristic_uuids (self s) = (pre ++ (label, uuid) :: post)%list
    /\ (forall u, In u (map snd pre) -> tr_get_characteristic l1 u = true)
    /\ tr_get_characteristic l1 uuid = false
    /\ fst (run adverts signal s)
       = match snd (tr_disconnect l1) with
         | Some e => if is_Exception e then Ret tt else Raise e
         | None => Ret tt
         end
    /\ calls (snd (run adverts signal s))
       = (calls s ++ [OpConnect; OpDisconnect])%list
    /\ link (snd (run adverts signal s)) = fst (tr_disconnect l1)
    /\ self (snd (run adverts signal s)) = with_client (with_device (self s) d) d
    /\ out (snd (run adverts signal s))
       = (out (snd (scan_for_device adverts s))
            ++ [Text ("Connected to " ++ address d); not_found_line label uuid]
            ++ failed_lines (snd (tr_disconnect l1)))%list.
Proof.
  intros Hfind Hconn Hmissing.
  destruct (first_missing_split l1 _ Hmissing)
    as (pre & label & uuid & post & Hreg & Hpre & Hmiss).
  exists pre, label, uuid, post.
  split; [exact Hreg|]. split; [exact Hpre|]. split; [exact Hmiss|].
  rewrite (run_aborts_at_first_missing s adverts signal d l1 pre post label uuid)
    by assumption.
  repeat split.
Qed.

Lemma missing_characteristic_aborts_run_witness :
  let r := DataTransmission.main (Scripted.fresh lacks_two) [other_device; arduino]
             (Some KeyboardInterrupt) in
  fst r = Ret tt
  /\ calls (snd r) = [OpConnect; OpDisconnect]
  /\ filter is_start (calls (snd r)) = [].
Proof.
  intros r. subst r. unfold DataTransmission.main.
  destruct (missing_characteristic_aborts_run
              (mkState
                 (new_manager DataTransmission.TARGET_NAME
                    DataTransmission.SERVICE_UUID
                    DataTransmission.CHARACTERISTIC_UUIDS)
                 (Scripted.fresh lacks_two) [] [])
              [other_device; arduino] (Some KeyboardInterrupt) arduino
              (Scripted.mkLink lacks_two true))
    as (pre & label & uuid & post & _ & _ & _ & Hres & Hcalls & _);
    [reflexivity | reflexivity | reflexivity |].
  rewrite Hres, Hcalls. simpl. auto.
Defined.

(** C6 (as stated) fails: the run on a peripheral that lacks characteristics
    returns the plain [None] that a healthy, interrupted session and a
    discovery timeout return; no failure naming the entry is raised or
    returned to the caller, only a line is printed. *)
Lemma missing_characteristic_not_surfaced :
  let missing := DataTransmission.main (Scripted.fresh lacks_two) [arduino]
                   (Some KeyboardInterrupt) in
  fst missing = Ret tt
  /\ fst missing
     = fst (DataTransmission.main (Scripted.fresh (Scripted.healthy full_uuids))
              [arduino] (Some KeyboardInterrupt))
  /\ fst missing
     = fst (DataTransmission.main (Scripted.fresh lacks_two) []
              (Some KeyboardInterrupt))
  /\ ~ exists e, fst missing = Raise e.
Proof.
  cbv zeta. repeat split; try reflexivity.
  intros [e He]. vm_compute in He. discriminate He.
Qed.

(** On that peripheral the entry named is the magnetometer, the first one
    missing; the temperature, missing too, is not looked up. *)
Example lacks_two_reports_magnetometer :
  out (snd (DataTransmission.main (Scripted.fresh lacks_two)
              [other_device; arduino] (Some KeyboardInterrupt)))
  = (found_lines "MonArduinoBLE" [other_device; arduino]
       ++ [Text "Connected to AA:BB:CC:DD:EE:FF";
           not_found_line "magnetometer" magnetometer_uuid])%list.
Proof. reflexivity. Qed.








(** The scripted client reports no connection once a disconnection
    returned. *)
Lemma scripted_disconnect_law (l l' : Scripted.link) :
  tr_disconnect l = (l', None) -> tr_is_connected l' = false.
Proof.
  simpl. destruct (Scripted.disconnect_error (Scripted.behaviour l)).
  - discriminate.
  - intros [= <-]. reflexivity.
Qed.

(** C8 (as amended).  For a client that reports no connection after a
    disconnection that returned: when the teardown sequence
    ([stop_notifications], then [disconnect]) has run once and returned, a
    second run of it awaits no transport operation and changes nothing. *)
Theorem second_teardown_is_noop {T : Type} `{Transport T} (s s1 : state T) :
  (forall l l', tr_disconnect l = (l', None) -> tr_is_connected l' = false) ->
  teardown s = (Ret tt, s1) ->
  teardown s1 = (Ret tt, s1).
Proof.
  intros Hlaw Hfirst.
  assert (client_connected s1 = false) as Hdown.
  { unfold teardown, bind in Hfirst.
    destruct (stop_notifications s) as [[[]|e|] s'].
    - exact (disconnect_returns_down s' s1 Hlaw Hfirst).
    - discriminate.
    - discriminate. }
  unfold teardown, stop_notifications, bind, get_self.
  rewrite stop_loop_not_connected by exact Hdown.
  now rewrite disconnect_not_connected.
Qed.

Lemma second_teardown_is_noop_witness :
  let s := streaming DataTransmission.CHARACTERISTIC_UUIDS
             (Scripted.healthy full_uuids) in
  let s1 := snd (teardown s) in
  calls s1
  = [OpStopNotify acceleration_uuid; OpStopNotify rotation_uuid;
     OpStopNotify magnetometer_uuid; OpStopNotify temperature_uuid;
     OpDisconnect]
  /\ teardown s1 = (Ret tt, s1).
Proof.
  intros s s1. split; [reflexivity|].
  apply (second_teardown_is_noop s s1).
  - exact scripted_disconnect_law.
  - reflexivity.
Defined.

(** C8 (as stated) fails: when the first teardown ends on a [stop_notify]
    that raises, the link is still up and the second teardown awaits the
    same [stop_notify] again. *)
Lemma second_teardown_repeats_after_error :
  let s := streaming DataTransmission.CHARACTERISTIC_UUIDS
             (refuses_stop acceleration_uuid) in
  let s1 := snd (teardown s) in
  let s2 := snd (teardown s1) in
  fst (teardown s) = Raise (BleakError "stop_notify failed")
  /\ calls s1 = [OpStopNotify acceleration_uuid]
  /\ calls s2 = [OpStopNotify acceleration_uuid; OpStopNotify acceleration_uuid]
  /\ calls s2 <> calls s1.
Proof.
  cbv zeta. repeat split. vm_compute. discriminate.
Qed.

(** * Properties of the notification handlers *)

Lemma unregistered_full (name : string) :
  ~ In name (map fst DataTransmission.CHARACTERISTIC_UUIDS) ->
  DataTransmission.decode name = fun _ => Ret None.
Proof.
  simpl. intros Hnot. unfold DataTransmission.decode.
  destruct (String.eqb_spec name "acceleration") as [->|_]; [tauto|].
  destruct (String.eqb_spec name "rotation") as [->|_]; [tauto|].
  destruct (String.eqb_spec name "magnetometer") as [->|_]; [tauto|].
  destruct (String.eqb_spec name "temperature") as [->|_]; [tauto|].
  reflexivity.
Qed.

(** C3 (as amended).  A payload whose width is wrong for its registered name
    makes the handler raise [struct.error]: the exception leaves the
    handler, in both profiles, and nothing is printed or recorded for the
    event.  A name outside the registry is printed with the result [None] by
    the full profile's handler, which returns normally; the timing-only
    handler raises [Exception("Unreachable")] for it. *)
Theorem handler_lets_decode_errors_escape :
  (forall (T : Type) (s : state T) name sender data,
      In name (map fst DataTransmission.CHARACTERISTIC_UUIDS) ->
      List.length data <> width_of name ->
      DataTransmission.notification_handler name sender data s
      = (Raise (StructError (Struct.size_message (width_of name))), s))
  /\ (forall (T : Type) (s : state T) name sender data,
        ~ In name (map fst DataTransmission.CHARACTERISTIC_UUIDS) ->
        DataTransmission.notification_handler name sender data s
        = (Ret tt,
           mkState (self s) (link s) (calls s)
             (out s ++ [Received name sender None])))
  /\ (forall now0 now1 sender data g,
        List.length data <> 4%nat ->
        BleSpeedTest.notification_handler now0 now1 "time" sender data g
        = (Raise (StructError (Struct.size_message 4)),
           if BleSpeedTest.first_time g
           then BleSpeedTest.mkGlobals now0 false (BleSpeedTest.times g)
           else g))
  /\ (forall now0 now1 name sender data g,
        name <> "time" ->
        BleSpeedTest.notification_handler now0 now1 name sender data g
        = (Raise (PyException "Unreachable"),
           if BleSpeedTest.first_time g
           then BleSpeedTest.mkGlobals now0 false (BleSpeedTest.times g)
           else g)).
Proof.
  split; [|split; [|split]].
  - intros T s name sender data Hin Hlen.
    unfold DataTransmission.notification_handler, bind, lift.
    now rewrite full_decode_wrong_length.
  - intros T s name sender data Hnot.
    unfold DataTransmission.notification_handler, bind, lift.
    now rewrite unregistered_full.
  - intros now0 now1 sender data g Hlen.
    unfold BleSpeedTest.notification_handler.
    now rewrite time_decode_wrong_length.
  - intros now0 now1 name sender data g Hne.
    unfold BleSpeedTest.notification_handler, BleSpeedTest.decode.
    apply String.eqb_neq in Hne. now rewrite Hne.
Qed.

Lemma handler_lets_decode_errors_escape_witness :
  let s := streaming DataTransmission.CHARACTERISTIC_UUIDS
             (Scripted.healthy full_uuids) in
  let g := BleSpeedTest.mkGlobals 0 true [] in
  DataTransmission.notification_handler "temperature" 7 short_buffer s
  = (Raise (StructError "unpack requires a buffer of 4 bytes"), s)
  /\ DataTransmission.notification_handler "humidity" 7 short_buffer s
     = (Ret tt,
        mkState (self s) (link s) (calls s) [Received "humidity" 7 None])
  /\ BleSpeedTest.notification_handler 10 20 "time" 7 short_buffer g
     = (Raise (StructError "unpack requires a buffer of 4 bytes"),
        BleSpeedTest.mkGlobals 10 false [])
  /\ BleSpeedTest.notification_handler 10 20 "humidity" 7 short_buffer g
     = (Raise (PyException "Unreachable"), BleSpeedTest.mkGlobals 10 false []).
Proof.
  intros s g.
  destruct handler_lets_decode_errors_escape as (Hbad & Hunknown & Htime & Hother).
  split; [|split; [|split]].
  - apply (Hbad _ s "temperature" 7 short_buffer).
    + simpl. auto.
    + vm_compute. discriminate.
  - rewrite (Hunknown _ s "humidity" 7 short_buffer); [reflexivity|].
    vm_compute. intros [E | [E | [E | [E | []]]]]; discriminate E.
  - rewrite Htime; [reflexivity|]. vm_compute. discriminate.
  - rewrite Hother; [reflexivity|]. discriminate.
Defined.

(** C3 (as stated) fails: a temperature notification of three bytes makes the
    full profile's handler raise; the exception leaves the handler and no
    line reports the event. *)
Lemma decode_failure_escapes_handler :
  let s := streaming DataTransmission.CHARACTERISTIC_UUIDS
             (Scripted.healthy full_uuids) in
  DataTransmission.notification_handler "temperature" 7 short_buffer s
  = (Raise (StructError "unpack requires a buffer of 4 bytes"), s)
  /\ fst (DataTransmission.notification_handler "temperature" 7 short_buffer s)
     <> Ret tt.
Proof.
  cbv zeta. split; [reflexivity|]. vm_compute. discriminate.
Qed.

(** * Further properties of the codec *)

Lemma testbit_31 (w : Z) :
  0 <= w < 2 ^ 32 -> Z.testbit w 31 = (2 ^ 31 <=? w).
Proof.
  change (2 ^ 32) with 4294967296. change (2 ^ 31) with 2147483648.
  intros Hw. destruct (Z.leb_spec 2147483648 w) as [Hhi | Hlo].
  - apply Z.testbit_true; [lia|]. change (2 ^ 31) with 2147483648.
    assert (w / 2147483648 = 1) as ->
      by (symmetry; apply (Z.div_unique w 2147483648 1 (w - 2147483648)); lia).
    reflexivity.
  - apply Z.testbit_false; [lia|]. change (2 ^ 31) with 2147483648.
    rewrite Z.div_small by lia. reflexivity.
Qed.

Lemma byte_val_inj (a b : byte) : Struct.byte_val a = Struct.byte_val b -> a = b.
Proof.
  unfold Struct.byte_val. intros E. apply N2Z.inj in E.
  pose proof (Byte.of_to_N a) as Ha. rewrite E, Byte.of_to_N in Ha.
  congruence.
Qed.

Lemma le32_inj (a0 a1 a2 a3 b0 b1 b2 b3 : byte) :
  Struct.le32 a0 a1 a2 a3 = Struct.le32 b0 b1 b2 b3 ->
  a0 = b0 /\ a1 = b1 /\ a2 = b2 /\ a3 = b3.
Proof.
  rewrite !le32_value. intros E.
  pose proof (byte_val_range a0). pose proof (byte_val_range a1).
  pose proof (byte_val_range a2). pose proof (byte_val_range a3).
  pose proof (byte_val_range b0). pose proof (byte_val_range b1).
  pose proof (byte_val_range b2). pose proof (byte_val_range b3).
  repeat split; apply byte_val_inj; lia.
Qed.

Lemma signed32_inj (u v : Z) :
  0 <= u < 2 ^ 32 -> 0 <= v < 2 ^ 32 ->
  Struct.signed32 u = Struct.signed32 v -> u = v.
Proof.
  intros Hu Hv. unfold Struct.signed32.
  rewrite !testbit_31 by assumption.
  change (2 ^ 32) with 4294967296 in *. change (2 ^ 31) with 2147483648.
  destruct (Z.leb_spec 2147483648 u), (Z.leb_spec 2147483648 v); lia.
Qed.

(** X1.  On every 4-byte buffer the magnetometer decoder returns the two's
    complement reading of the little-endian word: the number the bytes
    spell when that is below 2^31, that number minus 2^32 otherwise; the
    azimuth always lies in [-2^31, 2^31). *)
Theorem magnetometer_reads_twos_complement (b0 b1 b2 b3 : byte) :
  exists z,
    MagnetometerCharacteristic.read_from [b0; b1; b2; b3]
    = Ret (MagnetometerCharacteristic.mk (PyInt z))
    /\ z = (if byte_sum b0 b1 b2 b3 <? 2 ^ 31
            then byte_sum b0 b1 b2 b3
            else byte_sum b0 b1 b2 b3 - 2 ^ 32)
    /\ - 2 ^ 31 <= z < 2 ^ 31.
Proof.
  exists (Struct.signed32 (Struct.le32 b0 b1 b2 b3)).
  split; [reflexivity|].
  pose proof (le32_range b0 b1 b2 b3) as Hr.
  unfold Struct.signed32. rewrite testbit_31 by exact Hr.
  unfold byte_sum. rewrite <- le32_value.
  change (2 ^ 32) with 4294967296 in *. change (2 ^ 31) with 2147483648.
  destruct (Z.leb_spec 2147483648 (Struct.le32 b0 b1 b2 b3)),
    (Z.ltb_spec (Struct.le32 b0 b1 b2 b3) 2147483648); lia.
Qed.

(** X2.  Two 4-byte buffers that the magnetometer decoder maps to the same
    object are the same buffer: no two payloads are confused. *)
Theorem magnetometer_decoding_injective (d1 d2 : list byte) :
  List.length d1 = 4%nat ->
  List.length d2 = 4%nat ->
  MagnetometerCharacteristic.read_from d1 = MagnetometerCharacteristic.read_from d2 ->
  d1 = d2.
Proof.
  intros H1 H2.
  destruct d1 as [|a0 [|a1 [|a2 [|a3 [|? ?]]]]]; try discriminate H1.
  destruct d2 as [|b0 [|b1 [|b2 [|b3 [|? ?]]]]]; try discriminate H2.
  cbn. intros E. injection E as E.
  apply signed32_inj in E; try apply le32_range.
  destruct (le32_inj _ _ _ _ _ _ _ _ E) as (-> & -> & -> & ->).
  reflexivity.
Qed.

Lemma magnetometer_decoding_injective_witness :
  [Byte.xfe; Byte.xff; Byte.xff; Byte.xff]
  = Struct.pack_le32 (2 ^ 32 - 2).
Proof.
  apply magnetometer_decoding_injective; reflexivity.
Defined.

Lemma byte_val_byte_of (z : Z) : Struct.byte_val (Struct.byte_of z) = z mod 256.
Proof.
  unfold Struct.byte_val, Struct.byte_of.
  change 255 with (Z.ones 8). rewrite Z.land_ones by lia.
  change (2 ^ 8) with 256.
  pose proof (Z.mod_pos_bound z 256 ltac:(lia)) as Hr.
  pose proof (Byte.to_of_N_option_map (Z.to_N (z mod 256))) as Hb.
  destruct (N.leb_spec (Z.to_N (z mod 256)) 255) as [_ | Hbig]; [|lia].
  destruct (Byte.of_N (Z.to_N (z mod 256))) as [b|]; [|discriminate Hb].
  simpl in Hb. injection Hb as ->. lia.
Qed.

Lemma le32_pack_le32 (w : Z) :
  0 <= w < 2 ^ 32 ->
  match Struct.pack_le32 w with
  | [b0; b1; b2; b3] => Struct.le32 b0 b1 b2 b3 = w
  | _ => False
  end.
Proof.
  change (2 ^ 32) with 4294967296. intros Hw.
  unfold Struct.pack_le32. rewrite le32_value, !byte_val_byte_of.
  rewrite !Z.shiftr_div_pow2 by lia.
  change (2 ^ 8) with 256. change (2 ^ 16) with (256 * 256).
  change (2 ^ 24) with (256 * 256 * 256).
  rewrite <- !Z.div_div by lia.
  set (q1 := w / 256). set (q2 := q1 / 256). set (q3 := q2 / 256).
  pose proof (Z.div_mod w 256 ltac:(lia)) as E0. fold q1 in E0.
  pose proof (Z.div_mod q1 256 ltac:(lia)) as E1. fold q2 in E1.
  pose proof (Z.div_mod q2 256 ltac:(lia)) as E2. fold q3 in E2.
  pose proof (Z.mod_pos_bound w 256 ltac:(lia)).
  pose proof (Z.mod_pos_bound q1 256 ltac:(lia)).
  pose proof (Z.mod_pos_bound q2 256 ltac:(lia)).
  assert (0 <= q3 < 256) as Hq3.
  { generalize dependent (w mod 256). generalize dependent (q1 mod 256).
    generalize dependent (q2 mod 256). intros. lia. }
  rewrite (Z.mod_small q3 256) by exact Hq3.
  generalize dependent (w mod 256). generalize dependent (q1 mod 256).
  generalize dependent (q2 mod 256). intros. lia.
Qed.

(** X3.  Every 32-bit integer is reachable: for z in [-2^31, 2^31), the four
    little-endian bytes of z modulo 2^32 are decoded by the magnetometer
    decoder to the azimuth z. *)
Theorem magnetometer_round_trip (z : Z) :
  - 2 ^ 31 <= z < 2 ^ 31 ->
  MagnetometerCharacteristic.read_from (Struct.pack_le32 (z mod 2 ^ 32))
  = Ret (MagnetometerCharacteristic.mk (PyInt z)).
Proof.
  intros Hz.
  assert (0 <= z mod 2 ^ 32 < 2 ^ 32) as Hw by (apply Z.mod_pos_bound; lia).
  pose proof (le32_pack_le32 _ Hw) as Hle.
  destruct (Struct.pack_le32 (z mod 2 ^ 32))
    as [|b0 [|b1 [|b2 [|b3 [|? ?]]]]]; try contradiction.
  cbn. rewrite Hle. do 2 f_equal. f_equal.
  unfold Struct.signed32. rewrite testbit_31 by exact Hw.
  change (2 ^ 32) with 4294967296 in *. change (2 ^ 31) with 2147483648 in *.
  destruct (Z.leb_spec 2147483648 (z mod 4294967296));
    Z.div_mod_to_equations; lia.
Qed.

Lemma magnetometer_round_trip_witness :
  MagnetometerCharacteristic.read_from
    [Byte.x2e; Byte.xfb; Byte.xff; Byte.xff]
  = Ret (MagnetometerCharacteristic.mk (PyInt (-1234))).
Proof.
  apply (magnetometer_round_trip (-1234)). lia.
Defined.

Lemma binary32_of_bits_fits (w : Z) : fits_binary32 (Struct.binary32_of_bits w).
Proof.
  unfold Struct.binary32_of_bits.
  cbv zeta.
  change (Z.land (Z.shiftr w 23) 255)
    with (Z.land (Z.shiftr w 23) (Z.ones 8)).
  change (2 ^ 23 - 1) with (Z.ones 23).
  rewrite !Z.land_ones by (intros E; discriminate E).
  set (e := Z.shiftr w 23 mod 2 ^ 8).
  set (m := w mod 2 ^ 23).
  assert (0 <= e < 256) as He by (apply Z.mod_pos_bound; reflexivity).
  assert (0 <= m < 8388608) as Hm by (apply Z.mod_pos_bound; reflexivity).
  clearbody e m.
  change (2 ^ 23) with 8388608.
  destruct (Z.eqb_spec e 0) as [E0 | N0].
  - destruct m as [|p|p]; cbv [fits_binary32]; try exact I.
    change (2 ^ 24) with 16777216. lia.
  - destruct (Z.eqb_spec e 255) as [E255 | N255].
    + destruct (m =? 0); exact I.
    + destruct (m + 8388608) as [|p|p] eqn:Em; cbv [fits_binary32]; try exact I.
      change (2 ^ 24) with 16777216. lia.
Qed.

(** X4.  On every 4-byte buffer the temperature decoder returns a float that
    a binary32 word can denote: a zero, an infinity, a NaN, or a finite
    number of at most 24 significant bits with an exponent within
    [-149, 104]. *)
Theorem temperature_is_a_binary32 (b0 b1 b2 b3 : byte) :
  exists f,
    TemperatureCharacteristic.read_from [b0; b1; b2; b3]
    = Ret (TemperatureCharacteristic.mk (PyFloat f))
    /\ fits_binary32 f.
Proof.
  eexists. split; [reflexivity|]. apply binary32_of_bits_fits.
Qed.

(** X5.  The float triples are three packed single floats, in order: on a
    12-byte buffer the acceleration and rotation decoders return, as their
    x, y and z fields, what the temperature decoder returns on bytes 0-3,
    4-7 and 8-11. *)
Theorem triple_is_three_singles (d1 d2 d3 : list byte) :
  List.length d1 = 4%nat ->
  List.length d2 = 4%nat ->
  List.length d3 = 4%nat ->
  exists x y z,
    TemperatureCharacteristic.read_from d1 = Ret (TemperatureCharacteristic.mk x)
    /\ TemperatureCharacteristic.read_from d2 = Ret (TemperatureCharacteristic.mk y)
    /\ TemperatureCharacteristic.read_from d3 = Ret (TemperatureCharacteristic.mk z)
    /\ AccelerationCharacteristic.read_from (d1 ++ d2 ++ d3)%list
       = Ret (AccelerationCharacteristic.mk x y z)
    /\ RotationCharacteristic.read_from (d1 ++ d2 ++ d3)%list
       = Ret (RotationCharacteristic.mk x y z).
Proof.
  intros H1 H2 H3.
  destruct d1 as [|a0 [|a1 [|a2 [|a3 [|? ?]]]]]; try discriminate H1.
  destruct d2 as [|b0 [|b1 [|b2 [|b3 [|? ?]]]]]; try discriminate H2.
  destruct d3 as [|c0 [|c1 [|c2 [|c3 [|? ?]]]]]; try discriminate H3.
  do 3 eexists. repeat split.
Qed.

Lemma triple_is_three_singles_witness :
  exists x y z,
    TemperatureCharacteristic.read_from (Struct.pack_le32 0x3F800000)
    = Ret (TemperatureCharacteristic.mk x)
    /\ TemperatureCharacteristic.read_from (Struct.pack_le32 0x40000000)
       = Ret (TemperatureCharacteristic.mk y)
    /\ TemperatureCharacteristic.read_from (Struct.pack_le32 0xBF800000)
       = Ret (TemperatureCharacteristic.mk z)
    /\ AccelerationCharacteristic.read_from triple_buffer
       = Ret (AccelerationCharacteristic.mk x y z)
    /\ RotationCharacteristic.read_from triple_buffer
       = Ret (RotationCharacteristic.mk x y z).
Proof.
  apply (triple_is_three_singles (Struct.pack_le32 0x3F800000)
           (Struct.pack_le32 0x40000000) (Struct.pack_le32 0xBF800000));
    reflexivity.
Defined.

(** X6.  For a registered name the handler's [match] succeeds exactly on
    the buffers of the width fixed for that name, and then yields an object
    of the class that belongs to the name, never [None] and never another
    class. *)
Theorem decode_dispatches_by_name (name : string) (data : list byte) :
  In name (map fst DataTransmission.CHARACTERISTIC_UUIDS) ->
  ((exists m, DataTransmission.decode name data = Ret (Some m)
              /\ kind_of m = name)
   <-> List.length data = width_of name).
Proof.
  intros Hin. split.
  - intros (m & Hdec & _).
    destruct (Nat.eq_dec (List.length data) (width_of name)) as [E | N];
      [exact E|].
    rewrite (full_decode_wrong_length name data Hin N) in Hdec.
    discriminate Hdec.
  - intros Hlen.
    destruct (registered_full name Hin) as [-> | [-> | [-> | ->]]];
      simpl in Hlen;
      repeat (destruct data as [|? data]; try discriminate Hlen);
      eexists; split; reflexivity.
Qed.

Lemma decode_dispatches_by_name_witness :
  exists m,
    DataTransmission.decode "rotation" triple_buffer = Ret (Some m)
    /\ kind_of m = "rotation".
Proof.
  apply (decode_dispatches_by_name "rotation" triple_buffer).
  - simpl. auto.
  - reflexivity.
Defined.

(** X19.  On every 4-byte buffer the timestamp decoder reads the bytes as an
    unsigned number: the one element of the tuple it stores is the number
    the bytes spell, least significant byte first, and lies in [0, 2^32). *)
Theorem time_reads_unsigned (b0 b1 b2 b3 : byte) :
  TimeCharacteristic.read_from [b0; b1; b2; b3]
  = Ret (TimeCharacteristic.mk (PyTuple [PyInt (byte_sum b0 b1 b2 b3)]))
  /\ 0 <= byte_sum b0 b1 b2 b3 < 2 ^ 32.
Proof.
  unfold byte_sum. rewrite <- le32_value.
  split; [reflexivity | apply le32_range].
Qed.

(** * Further properties of the manager *)

Section ManagerMore.
Context {T : Type} `{Transport T}.

Lemma name_matches_exact (target : string) (d : BLEDevice) :
  name_matches target d = true <-> name d = Some target.
Proof.
  unfold name_matches. destruct (name d) as [n|].
  - rewrite String.eqb_eq. split; congruence.
  - split; discriminate.
Qed.

Lemma connect_raises (s : state T) (d : BLEDevice) (l1 : T) (e : exn) :
  device (self s) = Some d ->
  tr_connect (link s) = (l1, Some e) ->
  connect s
  = (if is_Exception e then Ret false else Raise e,
     mkState (with_client (self s) d) l1 (calls s ++ [OpConnect])
       (out s ++ connect_failed_lines e)).
Proof.
  intros Hd Hc. unfold connect, connect_failed_lines. monad_unfold. simpl.
  rewrite Hd. simpl. rewrite Hc. simpl.
  destruct (is_Exception e); simpl; rewrite ?app_nil_r; reflexivity.
Qed.

Lemma all_present_forall (l : T) (items : list (string * string)) :
  all_present l items = true ->
  forall u, In u (map snd items) -> tr_get_characteristic l u = true.
Proof.
  unfold all_present. rewrite forallb_forall. intros Hall u Hu.
  apply in_map_iff in Hu. destruct Hu as ([la u'] & <- & Hin).
  exact (Hall _ Hin).
Qed.

(** The run up to the listening loop, when nothing fails. *)
Lemma run_reaches_listening (s : state T) (adverts : list BLEDevice)
    (signal : option exn) (d : BLEDevice) (l1 l2 : T) :
  find (name_matches (target_name (self s))) adverts = Some d ->
  tr_connect (link s) = (l1, None) ->
  all_present l1 (characteristic_uuids (self s)) = true ->
  link_after (map OpStartNotify (map snd (characteristic_uuids (self s)))) l1
  = Some l2 ->
  run adverts signal s
  = try_finally
      (try_except (listen signal) is_shutdown_signal
         (fun _ => print (Text (newline ++ "Shutdown signal received. Exiting..."))))
      teardown
      (mkState (with_client (with_device (self s) d) d) l2
         (calls s ++ OpConnect
            :: map OpStartNotify (map snd (characteristic_uuids (self s))))
         (out (snd (scan_for_device adverts s)) ++ subscribed_lines (self s) d)).
Proof.
  intros Hfind Hconn Hall Hstart. unfold run, bind.
  rewrite (scan_found _ d) by exact Hfind. cbn [negb fst snd out]. cbv beta iota.
  erewrite connect_validated; simpl; eauto using all_present_forall.
  unfold start_notifications, bind, get_self. simpl.
  erewrite start_loop_all_ok; simpl; eauto; [|discriminate].
  unfold print. simpl. f_equal.
  unfold with_device, with_client, subscribed_lines. simpl.
  rewrite <- ?app_assoc. simpl. rewrite <- ?app_assoc. reflexivity.
Qed.

End ManagerMore.

(** X7.  [scan_for_device] awaits no client operation and touches neither
    the link nor the client.  It returns [True] exactly when some
    advertisement carries the target name; it then stores the first such
    advertiser, whose name is the target name letter for letter.  Otherwise
    it returns [False] and leaves [device] as it was. *)
Theorem scan_takes_first_exact_match {T : Type} `{Transport T}
    (s : state T) (adverts : list BLEDevice) :
  calls (snd (scan_for_device adverts s)) = calls s
  /\ link (snd (scan_for_device adverts s)) = link s
  /\ client (self (snd (scan_for_device adverts s))) = client (self s)
  /\ match find (name_matches (target_name (self s))) adverts with
     | Some d =>
         fst (scan_for_device adverts s) = Ret true
         /\ device (self (snd (scan_for_device adverts s))) = Some d
         /\ name d = Some (target_name (self s))
     | None =>
         fst (scan_for_device adverts s) = Ret false
         /\ device (self (snd (scan_for_device adverts s))) = device (self s)
     end.
Proof.
  destruct (find (name_matches (target_name (self s))) adverts) as [d|] eqn:E.
  - rewrite (scan_found adverts d s E). simpl. repeat split.
    apply find_some in E. now apply name_matches_exact.
  - rewrite scan_timeout; [simpl; auto|].
    intros d Hd. exact (find_none _ _ E d Hd).
Qed.

(** X8.  Once the connection is established, [connect] returns [True]
    exactly when the peripheral exposes every characteristic of the
    registry (in particular always for an empty registry). *)
Theorem connect_succeeds_iff_all_present {T : Type} `{Transport T}
    (s : state T) (d : BLEDevice) (l1 : T) :
  device (self s) = Some d ->
  tr_connect (link s) = (l1, None) ->
  (fst (connect s) = Ret true
   <-> all_present l1 (characteristic_uuids (self s)) = true).
Proof.
  intros Hd Hc. split.
  - intros Hret.
    destruct (all_present l1 (characteristic_uuids (self s))) eqn:Hall;
      [reflexivity|].
    destruct (first_missing_split l1 _ Hall)
      as (pre & label & uuid & post & Hreg & Hpre & Hmiss).
    rewrite (connect_missing s d l1 pre post label uuid) in Hret by assumption.
    simpl in Hret.
    destruct (snd (tr_disconnect l1)) as [e|];
      [destruct (is_Exception e)|]; discriminate Hret.
  - intros Hall.
    rewrite (connect_validated s d l1) by eauto using all_present_forall.
    reflexivity.
Qed.

Lemma connect_succeeds_iff_all_present_witness :
  let after_scan p :=
    mkState
      (mkManager "MonArduinoBLE" DataTransmission.SERVICE_UUID
         DataTransmission.CHARACTERISTIC_UUIDS (Some arduino) None)
      (Scripted.fresh p) [] [] in
  fst (connect (after_scan (Scripted.healthy full_uuids))) = Ret true
  /\ fst (connect (after_scan lacks_two)) <> Ret true.
Proof.
  intros after_scan. split.
  - apply (connect_succeeds_iff_all_present
             (after_scan (Scripted.healthy full_uuids)) arduino
             (Scripted.mkLink (Scripted.healthy full_uuids) true));
      reflexivity.
  - intros Htrue.
    apply (connect_succeeds_iff_all_present (after_scan lacks_two) arduino
             (Scripted.mkLink lacks_two true)) in Htrue;
      [discriminate Htrue | reflexivity | reflexivity].
Defined.

(** The run that ends on a failed connection. *)
Lemma run_ends_on_failed_connection {T : Type} `{Transport T}
    (s : state T) (adverts : list BLEDevice) (signal : option exn)
    (d : BLEDevice) (l1 : T) (e : exn) :
  find (name_matches (target_name (self s))) adverts = Some d ->
  tr_connect (link s) = (l1, Some e) ->
  run adverts signal s
  = (if is_Exception e then Ret tt else Raise e,
     mkState (with_client (with_device (self s) d) d) l1
       (calls s ++ [OpConnect])
       (out (snd (scan_for_device adverts s)) ++ connect_failed_lines e)).
Proof.
  intros Hfind Hconn. unfold run, bind.
  rewrite (scan_found _ d) by exact Hfind. cbn [negb fst snd out]. cbv beta iota.
  erewrite connect_raises; simpl; eauto.
  unfold with_device, with_client. simpl.
  destruct (is_Exception e); simpl; rewrite <- ?app_assoc; reflexivity.
Qed.

(** X9.  When the device is found but [client.connect()] raises, the run
    ends at once: an [Exception] is swallowed, reported on one line after
    the lines of the scan, and [run] returns [None]; anything else is
    raised and nothing is printed for it.  The connection attempt is the
    only operation awaited, so no disconnection is awaited, and the manager
    keeps the client it built. *)
Theorem connect_failure_ends_run {T : Type} `{Transport T}
    (s : state T) (adverts : list BLEDevice) (signal : option exn)
    (d : BLEDevice) (l1 : T) (e : exn) :
  find (name_matches (target_name (self s))) adverts = Some d ->
  tr_connect (link s) = (l1, Some e) ->
  fst (run adverts signal s) = (if is_Exception e then Ret tt else Raise e)
  /\ calls (snd (run adverts signal s)) = (calls s ++ [OpConnect])%list
  /\ link (snd (run adverts signal s)) = l1
  /\ self (snd (run adverts signal s)) = with_client (with_device (self s) d) d
  /\ out (snd (run adverts signal s))
     = (out (snd (scan_for_device adverts s)) ++ connect_failed_lines e)%list.
Proof.
  intros Hfind Hconn.
  rewrite (run_ends_on_failed_connection s adverts signal d l1 e) by assumption.
  repeat split.
Qed.

(** A teardown in which every unsubscription returns. *)
Lemma teardown_after_unsubscribing {T : Type} `{Transport T} (s : state T)
    (l' : T) :
  client (self s) <> None ->
  unsubscribed_all (map snd (characteristic_uuids (self s))) (link s) = Some l' ->
  tr_is_connected l' = true ->
  teardown s
  = (match snd (tr_disconnect l') with
     | None => Ret tt
     | Some e => Raise e
     end,
     mkState (self s) (fst (tr_disconnect l'))
       (calls s ++ map OpStopNotify (map snd (characteristic_uuids (self s)))
          ++ [OpDisconnect])
       (out s ++ map stopped_line (map snd (characteristic_uuids (self s)))
          ++ match snd (tr_disconnect l') with
             | None => [Text "Disconnected from the device."]
             | Some _ => []
             end)).
Proof.
  intros Hc Hall Hup.
  unfold teardown, stop_notifications, bind, get_self.
  rewrite (stop_loop_all_ok _ _ l') by assumption.
  unfold disconnect. monad_unfold. unfold client_connected. simpl.
  destruct (client (self s)); [|congruence].
  rewrite Hup. simpl.
  destruct (tr_disconnect l') as [l'' [e|]]; simpl;
    rewrite <- ?app_assoc; rewrite ?app_nil_r; reflexivity.
Qed.

Lemma connect_failure_ends_run_witness :
  let r := DataTransmission.main (Scripted.fresh unreachable_peripheral)
             [arduino] (Some KeyboardInterrupt) in
  fst r = Ret tt
  /\ calls (snd r) = [OpConnect]
  /\ client (self (snd r)) = Some arduino.
Proof.
  intros r. subst r. unfold DataTransmission.main.
  destruct (connect_failure_ends_run
              (mkState
                 (new_manager DataTransmission.TARGET_NAME
                    DataTransmission.SERVICE_UUID
                    DataTransmission.CHARACTERISTIC_UUIDS)
                 (Scripted.fresh unreachable_peripheral) [] [])
              [arduino] (Some KeyboardInterrupt) arduino
              (Scripted.fresh unreachable_peripheral)
              (BleakError "Device not reachable"))
    as (Hres & Hcalls & _ & Hself & _); [reflexivity | reflexivity |].
  rewrite Hres, Hcalls, Hself. repeat split.
Defined.

(** A whole session in which nothing fails and the client reports a
    connection throughout the teardown. *)
Lemma run_whole_session {T : Type} `{Transport T}
    (s : state T) (adverts : list BLEDevice) (e : exn)
    (d : BLEDevice) (l1 l2 l3 l4 : T) :
  find (name_matches (target_name (self s))) adverts = Some d ->
  tr_connect (link s) = (l1, None) ->
  all_present l1 (characteristic_uuids (self s)) = true ->
  link_after (map OpStartNotify (map snd (characteristic_uuids (self s)))) l1
  = Some l2 ->
  unsubscribed_all (map snd (characteristic_uuids (self s))) (tr_wait l2)
  = Some l3 ->
  tr_is_connected l3 = true ->
  tr_disconnect l3 = (l4, None) ->
  run adverts (Some e) s
  = (if is_shutdown_signal e then Ret tt else Raise e,
     mkState (with_client (with_device (self s) d) d) l4
       (calls s ++ OpConnect
          :: map OpStartNotify (map snd (characteristic_uuids (self s)))
          ++ map OpStopNotify (map snd (characteristic_uuids (self s)))
          ++ [OpDisconnect])
       (out (snd (scan_for_device adverts s))
          ++ subscribed_lines (self s) d ++ shutdown_lines e
          ++ map stopped_line (map snd (characteristic_uuids (self s)))
          ++ [Text "Disconnected from the device."])).
Proof.
  intros Hfind Hconn Hall Hstart Hstop Hup Hdisc.
  rewrite (run_reaches_listening s adverts (Some e) d l1 l2) by assumption.
  set (o := out (snd (scan_for_device adverts s))).
  set (s1 := mkState (with_client (with_device (self s) d) d) (tr_wait l2)
               (calls s ++ OpConnect
                  :: map OpStartNotify (map snd (characteristic_uuids (self s))))
               (o ++ subscribed_lines (self s) d ++ shutdown_lines e)).
  assert (teardown s1
          = (Ret tt,
             mkState (self s1) l4
               (calls s1
                  ++ map OpStopNotify (map snd (characteristic_uuids (self s1)))
                  ++ [OpDisconnect])
               (out s1
                  ++ map stopped_line (map snd (characteristic_uuids (self s1)))
                  ++ [Text "Disconnected from the device."]))) as Htear.
  { rewrite (teardown_after_unsubscribing s1 l3);
      [rewrite Hdisc; reflexivity | simpl; discriminate | exact Hstop | exact Hup]. }
  unfold try_finally, try_except, listen, shutdown_lines in *. simpl.
  destruct (is_shutdown_signal e); simpl.
  - unfold print. simpl. fold s1.
    replace (mkState (with_client (with_device (self s) d) d) (tr_wait l2)
               (calls s ++ OpConnect
                  :: map OpStartNotify (map snd (characteristic_uuids (self s))))
               ((o ++ subscribed_lines (self s) d)
                  ++ [Text (newline ++ "Shutdown signal received. Exiting...")]))
      with s1 by (unfold s1; now rewrite <- app_assoc).
    rewrite Htear. subst s1. simpl. f_equal. f_equal;
      rewrite <- ?app_assoc; simpl; rewrite <- ?app_assoc; reflexivity.
  - replace (mkState (with_client (with_device (self s) d) d) (tr_wait l2)
               (calls s ++ OpConnect
                  :: map OpStartNotify (map snd (characteristic_uuids (self s))))
               (o ++ subscribed_lines (self s) d))
      with s1 by (unfold s1; now rewrite app_nil_r).
    rewrite Htear. subst s1. simpl. f_equal. f_equal;
      rewrite <- ?app_assoc; simpl; rewrite <- ?app_assoc;
      rewrite ?app_nil_r; reflexivity.
Qed.

(** X10.  A session in which no operation fails and the client still
    reports a connection when the teardown runs (before every unsubscription
    and before the disconnection) subscribes to the registry's
    characteristics in registry order and, once the listening loop is ended
    by an exception, unsubscribes from them in the same order and then
    disconnects.  [run] returns [None] when that exception is
    [KeyboardInterrupt] or [CancelledError] and raises it again otherwise. *)
Theorem session_follows_registry_order {T : Type} `{Transport T}
    (s : state T) (adverts : list BLEDevice) (e : exn)
    (d : BLEDevice) (l1 l2 l3 l4 : T) :
  find (name_matches (target_name (self s))) adverts = Some d ->
  tr_connect (link s) = (l1, None) ->
  all_present l1 (characteristic_uuids (self s)) = true ->
  link_after (map OpStartNotify (map snd (characteristic_uuids (self s)))) l1
  = Some l2 ->
  unsubscribed_all (map snd (characteristic_uuids (self s))) (tr_wait l2)
  = Some l3 ->
  tr_is_connected l3 = true ->
  tr_disconnect l3 = (l4, None) ->
  fst (run adverts (Some e) s)
  = (if is_shutdown_signal e then Ret tt else Raise e)
  /\ calls (snd (run adverts (Some e) s))
     = (calls s ++ OpConnect
          :: map OpStartNotify (map snd (characteristic_uuids (self s)))
          ++ map OpStopNotify (map snd (characteristic_uuids (self s)))
          ++ [OpDisconnect])%list
  /\ link (snd (run adverts (Some e) s)) = l4
  /\ self (snd (run adverts (Some e) s)) = with_client (with_device (self s) d) d.
Proof.
  intros Hfind Hconn Hall Hstart Hstop Hup Hdisc.
  rewrite (run_whole_session s adverts e d l1 l2 l3 l4) by assumption.
  repeat split.
Qed.

Lemma session_follows_registry_order_witness :
  let r := DataTransmission.main (Scripted.fresh (Scripted.healthy full_uuids))
             [other_device; arduino] (Some CancelledError) in
  fst r = Ret tt
  /\ calls (snd r)
     = (OpConnect :: map OpStartNotify full_uuids
          ++ map OpStopNotify full_uuids ++ [OpDisconnect])%list.
Proof.
  intros r. subst r. unfold DataTransmission.main.
  destruct (session_follows_registry_order
              (mkState
                 (new_manager DataTransmission.TARGET_NAME
                    DataTransmission.SERVICE_UUID
                    DataTransmission.CHARACTERISTIC_UUIDS)
                 (Scripted.fresh (Scripted.healthy full_uuids)) [] [])
              [other_device; arduino] CancelledError arduino
              (Scripted.mkLink (Scripted.healthy full_uuids) true)
              (Scripted.mkLink (Scripted.healthy full_uuids) true)
              (Scripted.mkLink (Scripted.healthy full_uuids) true)
              (Scripted.mkLink (Scripted.healthy full_uuids) false))
    as (Hres & Hcalls & _); try reflexivity.
  rewrite Hres, Hcalls. split; reflexivity.
Defined.

(** X11.  Without an exception that interrupts a sleep, a session that
    subscribed never leaves its listening loop: [run] does not return and
    the teardown is never reached, whatever the transport. *)
Theorem session_blocks_without_signal {T : Type} `{Transport T}
    (s : state T) (adverts : list BLEDevice) (d : BLEDevice) (l1 l2 : T) :
  find (name_matches (target_name (self s))) adverts = Some d ->
  tr_connect (link s) = (l1, None) ->
  all_present l1 (characteristic_uuids (self s)) = true ->
  link_after (map OpStartNotify (map snd (characteristic_uuids (self s)))) l1
  = Some l2 ->
  fst (run adverts None s) = Blocked
  /\ calls (snd (run adverts None s))
     = (calls s ++ OpConnect
          :: map OpStartNotify (map snd (characteristic_uuids (self s))))%list.
Proof.
  intros Hfind Hconn Hall Hstart.
  rewrite (run_reaches_listening s adverts None d l1 l2) by assumption.
  split; reflexivity.
Qed.

Lemma session_blocks_without_signal_witness :
  let r := DataTransmission.main (Scripted.fresh (Scripted.healthy full_uuids))
             [arduino] None in
  fst r = Blocked
  /\ calls (snd r) = (OpConnect :: map OpStartNotify full_uuids)%list.
Proof.
  intros r. subst r. unfold DataTransmission.main.
  destruct (session_blocks_without_signal
              (mkState
                 (new_manager DataTransmission.TARGET_NAME
                    DataTransmission.SERVICE_UUID
                    DataTransmission.CHARACTERISTIC_UUIDS)
                 (Scripted.fresh (Scripted.healthy full_uuids)) [] [])
              [arduino] arduino
              (Scripted.mkLink (Scripted.healthy full_uuids) true)
              (Scripted.mkLink (Scripted.healthy full_uuids) true))
    as [Hblocked Hcalls]; try reflexivity.
  split; [exact Hblocked | rewrite Hcalls; reflexivity].
Defined.

(** X12.  On a manager that has no client, or whose client reports no
    connection, [stop_notifications] followed by [disconnect] returns
    without awaiting anything, printing anything or raising, whatever the
    registry holds. *)
Theorem teardown_without_connection {T : Type} `{Transport T} (s : state T) :
  client_connected s = false ->
  stop_notifications s = (Ret tt, s)
  /\ disconnect s = (Ret tt, s)
  /\ teardown s = (Ret tt, s).
Proof.
  intros Hdown.
  assert (stop_notifications s = (Ret tt, s)) as Hstop.
  { unfold stop_notifications, bind, get_self.
    now rewrite stop_loop_not_connected. }
  assert (disconnect s = (Ret tt, s)) as Hdisc
    by now apply disconnect_not_connected.
  repeat split; try assumption.
  unfold teardown, bind. now rewrite Hstop.
Qed.

Lemma teardown_without_connection_witness :
  teardown manager_without_client = (Ret tt, manager_without_client).
Proof.
  apply (teardown_without_connection manager_without_client). reflexivity.
Defined.

(** X13.  [start_notifications] on a manager that has no client raises
    [AttributeError] at the first characteristic, before anything is awaited
    or printed; with an empty registry it returns, having done nothing. *)
Theorem start_notifications_needs_client {T : Type} `{Transport T} (s : state T) :
  client (self s) = None ->
  start_notifications s
  = (match characteristic_uuids (self s) with
     | [] => Ret tt
     | _ :: _ =>
         Raise (AttributeError
                  "'NoneType' object has no attribute 'start_notify'")
     end, s).
Proof.
  intros Hc. unfold start_notifications, bind, get_self.
  destruct (characteristic_uuids (self s)) as [|[m u] rest]; simpl.
  - reflexivity.
  - monad_unfold. rewrite Hc. reflexivity.
Qed.

Lemma start_notifications_needs_client_witness :
  start_notifications manager_without_client
  = (Raise (AttributeError "'NoneType' object has no attribute 'start_notify'"),
     manager_without_client).
Proof.
  apply (start_notifications_needs_client manager_without_client). reflexivity.
Defined.




(** *** What a run may await, whatever the transport does *)

Section TraceGrammar.
Context {T : Type} `{Transport T}.

Lemma subsequence_nil_l {A : Type} (ys : list A) : subsequence [] ys.
Proof. induction ys; constructor; assumption. Qed.

Lemma same_configuration_refl (m : BLEManager) : same_configuration m m.
Proof. repeat split. Qed.

Lemma connect_trace (s : state T) :
  same_configuration (self s) (self (snd (connect s)))
  /\ ((fst (connect s) = Ret true
       /\ calls (snd (connect s)) = (calls s ++ [OpConnect])%list
       /\ client (self (snd (connect s))) <> None)
      \/ (fst (connect s) <> Ret true
          /\ (calls (snd (connect s)) = (calls s ++ [])%list
              \/ calls (snd (connect s)) = (calls s ++ [OpConnect])%list
              \/ calls (snd (connect s))
                 = (calls s ++ [OpConnect; OpDisconnect])%list))).
Proof.
  destruct (device (self s)) as [d|] eqn:Hd.
  - destruct (tr_connect (link s)) as [l1 [e|]] eqn:Hc.
    + rewrite (connect_raises s d l1 e Hd Hc). simpl.
      split; [repeat split|]. right. split; [|auto].
      destruct (is_Exception e); discriminate.
    + destruct (all_present l1 (characteristic_uuids (self s))) eqn:Hall.
      * rewrite (connect_validated s d l1 Hd Hc (all_present_forall _ _ Hall)).
        simpl. split; [repeat split|]. left. repeat split. discriminate.
      * destruct (first_missing_split l1 _ Hall)
          as (pre & label & uuid & post & Hreg & Hpre & Hmiss).
        rewrite (connect_missing s d l1 pre post label uuid Hd Hc Hreg Hpre Hmiss).
        simpl. split; [repeat split|]. right. split; [|auto].
        destruct (snd (tr_disconnect l1)) as [e|];
          [destruct (is_Exception e)|]; discriminate.
  - assert (connect s
            = (Ret false,
               mkState (self s) (link s) (calls s)
                 (out s ++ [Text "No device available to connect to."]))) as E
      by (unfold connect; monad_unfold; simpl; now rewrite Hd).
    rewrite E. simpl. split; [repeat split|]. right.
    split; [discriminate|]. left. now rewrite app_nil_r.
Qed.

Lemma start_loop_trace (items : list (string * string)) (s : state T) :
  self (snd (start_notifications_loop items s)) = self s
  /\ (exists k,
        calls (snd (start_notifications_loop items s))
        = (calls s ++ map OpStartNotify (firstn k (map snd items)))%list)
  /\ (fst (start_notifications_loop items s) = Ret tt ->
      calls (snd (start_notifications_loop items s))
      = (calls s ++ map OpStartNotify (map snd items))%list).
Proof.
  revert s. induction items as [|[m u] rest IH]; intros s; simpl.
  - split; [reflexivity|]. split; [exists 0%nat|intros _]; now rewrite app_nil_r.
  - monad_unfold. destruct (client (self s)) as [c|]; simpl.
    + destruct (tr_start_notify u (link s)) as [l1 [e|]]; simpl.
      * split; [reflexivity|]. split; [exists 1%nat; reflexivity|discriminate].
      * match goal with
        | |- context [start_notifications_loop rest ?x] =>
            destruct (IH x) as (Hself & [k Hk] & Hall);
            destruct (start_notifications_loop rest x) as [[[] | e |] s2]
        end; simpl in *;
          (split; [exact Hself|]; split;
           [ exists (S k); rewrite Hk; simpl; now rewrite <- app_assoc
           | intros Hret; try discriminate Hret;
             rewrite (Hall Hret); now rewrite <- app_assoc ]).
    + split; [reflexivity|].
      split; [exists 0%nat; simpl; now rewrite app_nil_r|discriminate].
Qed.

Lemma stop_loop_trace (uuids : list string) (s : state T) :
  self (snd (stop_notifications_loop uuids s)) = self s
  /\ exists stops,
       subsequence stops uuids
       /\ calls (snd (stop_notifications_loop uuids s))
          = (calls s ++ map OpStopNotify stops)%list.
Proof.
  revert s. induction uuids as [|u rest IH]; intros s; simpl.
  - split; [reflexivity|]. exists []. split; [constructor|now rewrite app_nil_r].
  - monad_unfold. destruct (client_connected s); simpl.
    + destruct (tr_stop_notify u (link s)) as [l1 [e|]]; simpl.
      * split; [reflexivity|]. exists [u].
        split; [constructor; apply subsequence_nil_l|reflexivity].
      * match goal with
        | |- context [stop_notifications_loop rest ?x] =>
            destruct (IH x) as (Hself & stops & Hsub & Hcalls);
            destruct (stop_notifications_loop rest x) as [[[] | e |] s2]
        end; simpl in *;
          (split; [exact Hself|]; exists (u :: stops);
           split; [now constructor|];
           rewrite Hcalls; simpl; now rewrite <- app_assoc).
    + destruct (IH s) as (Hself & stops & Hsub & Hcalls).
      destruct (stop_notifications_loop rest s) as [[[] | e |] s2];
        simpl in *;
        (split; [exact Hself|]; exists stops;
         split; [now constructor|exact Hcalls]).
Qed.

Lemma disconnect_trace (s : state T) :
  self (snd (disconnect s)) = self s
  /\ exists disc,
       (disc = [] \/ disc = [OpDisconnect])
       /\ calls (snd (disconnect s)) = (calls s ++ disc)%list.
Proof.
  unfold disconnect. monad_unfold. destruct (client_connected s); simpl.
  - destruct (tr_disconnect (link s)) as [l1 [e|]]; simpl;
      (split; [reflexivity|]; exists [OpDisconnect]; auto).
  - split; [reflexivity|]. exists []. split; [auto|now rewrite app_nil_r].
Qed.

Lemma teardown_trace (s : state T) :
  self (snd (teardown s)) = self s
  /\ exists stops disc,
       subsequence stops (map snd (characteristic_uuids (self s)))
       /\ (disc = [] \/ disc = [OpDisconnect])
       /\ calls (snd (teardown s))
          = (calls s ++ map OpStopNotify stops ++ disc)%list.
Proof.
  unfold teardown, stop_notifications, bind, get_self.
  destruct (stop_loop_trace (map snd (characteristic_uuids (self s))) s)
    as (Hself & stops & Hsub & Hcalls).
  destruct (stop_notifications_loop (map snd (characteristic_uuids (self s))) s)
    as [[[] | e |] s1]; simpl in *.
  - destruct (disconnect_trace s1) as (Hself' & disc & Hdisc & Hcalls').
    split; [congruence|]. exists stops, disc. repeat split; try assumption.
    rewrite Hcalls', Hcalls. now rewrite <- app_assoc.
  - split; [exact Hself|]. exists stops, []. repeat split; auto.
    now rewrite app_nil_r.
  - split; [exact Hself|]. exists stops, []. repeat split; auto.
    now rewrite app_nil_r.
Qed.

End TraceGrammar.

Lemma listening_phase_trace {T : Type} `{Transport T} (signal : option exn)
    (s : state T) :
  let r := try_finally
             (try_except (listen signal) is_shutdown_signal
                (fun _ => print (Text (newline ++ "Shutdown signal received. Exiting..."))))
             teardown s in
  self (snd r) = self s
  /\ exists stops disc,
       subsequence stops (map snd (characteristic_uuids (self s)))
       /\ (disc = [] \/ disc = [OpDisconnect])
       /\ calls (snd r) = (calls s ++ map OpStopNotify stops ++ disc)%list.
Proof.
  cbv zeta. unfold try_finally, try_except, listen, print.
  destruct signal as [e|]; cbn [fst snd self link calls out].
  - destruct (is_shutdown_signal e);
      match goal with
      | |- context [teardown ?x] =>
          destruct (teardown_trace x) as (Hself & stops & disc & Hsub & Hdisc & Hcalls);
          destruct (teardown x) as [[[] | e' |] s5]
      end; cbn [fst snd self link calls out] in *;
      (split; [exact Hself|]; exists stops, disc; repeat split; assumption).
  - split; [reflexivity|]. exists [], []. repeat split; auto.
    + apply subsequence_nil_l.
    + now rewrite app_nil_r.
Qed.

(** The pattern of the operations of a run, for every transport. *)
Lemma run_trace_shape {T : Type} `{Transport T} (s : state T)
    (adverts : list BLEDevice) (signal : option exn) :
  exists t,
    calls (snd (run adverts signal s)) = (calls s ++ t)%list
    /\ trace_ok (map snd (characteristic_uuids (self s))) t
    /\ same_configuration (self s) (self (snd (run adverts signal s))).
Proof.
  unfold run, bind.
  destruct (find (name_matches (target_name (self s))) adverts) as [d|] eqn:Hfind.
  2: { rewrite scan_timeout by (intros d Hd; exact (find_none _ _ Hfind d Hd)).
       simpl. exists []. split; [now rewrite app_nil_r|].
       split; [left; reflexivity | repeat split]. }
  rewrite (scan_found _ d) by exact Hfind. cbn [negb]. cbv beta iota.
  match goal with |- context [connect ?x] => set (s1 := x) end.
  assert (calls s1 = calls s) as Hc1 by reflexivity.
  assert (same_configuration (self s) (self s1)) as Hcfg1 by (repeat split).
  destruct (connect_trace s1) as (Hcfg2 & Hconn).
  destruct (connect s1) as [[[|] | e |] s2]; cbn [fst snd negb] in *.
  - (* validated: the subscriptions *)
    destruct Hconn as [(_ & Hc2 & Hclient) | (Habs & _)]; [|congruence].
    assert (same_configuration (self s) (self s2)) as Hcfg
      by (destruct Hcfg1 as (? & ? & ?), Hcfg2 as (? & ? & ?);
          repeat split; congruence).
    assert (characteristic_uuids (self s2) = characteristic_uuids (self s))
      as Hreg by apply Hcfg.
    unfold start_notifications, bind, get_self. cbn [fst snd].
    destruct (start_loop_trace (characteristic_uuids (self s2)) s2)
      as (Hself3 & [k Hk] & Hall).
    destruct (start_notifications_loop (characteristic_uuids (self s2)) s2)
      as [[[] | e |] s3]; cbn [fst snd] in *.
    + (* subscribed: the listening phase *)
      specialize (Hall eq_refl).
      change (print (Text "Listening for BLE messages... Press Ctrl+C to exit.") s3)
        with (@Ret unit tt,
              mkState (self s3) (link s3) (calls s3)
                (out s3
                   ++ [Text "Listening for BLE messages... Press Ctrl+C to exit."])).
      cbv beta iota.
      match goal with
      | |- context [try_finally ?b teardown ?x] =>
          destruct (listening_phase_trace signal x)
            as (Hself4 & stops & disc & Hsub & Hdisc & Hcalls)
      end.
      cbn [self calls] in *.
      eexists. split; [|split].
      * rewrite Hcalls, Hall, Hc2, Hc1, Hreg. rewrite <- !app_assoc. reflexivity.
      * right. right. right. exists stops, disc.
        rewrite Hself3, Hreg in Hsub. repeat split; assumption.
      * rewrite Hself4, Hself3. exact Hcfg.
    + exists (OpConnect :: map OpStartNotify
                (firstn k (map snd (characteristic_uuids (self s))))).
      split; [|split].
      * rewrite Hk, Hc2, Hc1, Hreg. now rewrite <- app_assoc.
      * right. right. left. exists k. reflexivity.
      * rewrite Hself3. exact Hcfg.
    + exists (OpConnect :: map OpStartNotify
                (firstn k (map snd (characteristic_uuids (self s))))).
      split; [|split].
      * rewrite Hk, Hc2, Hc1, Hreg. now rewrite <- app_assoc.
      * right. right. left. exists k. reflexivity.
      * rewrite Hself3. exact Hcfg.
  - (* connect returned False *)
    destruct Hconn as [(Habs & _) | (_ & Hc2)]; [discriminate Habs|].
    assert (same_configuration (self s) (self s2)) as Hcfg
      by (destruct Hcfg1 as (? & ? & ?), Hcfg2 as (? & ? & ?);
          repeat split; congruence).
    destruct Hc2 as [Hc2 | [Hc2 | Hc2]]; rewrite Hc1 in Hc2;
      eexists; (split; [exact Hc2|]); (split; [|exact Hcfg]).
    + left. reflexivity.
    + right. right. left. exists 0%nat. reflexivity.
    + right. left. reflexivity.
  - (* connect raised *)
    destruct Hconn as [(Habs & _) | (_ & Hc2)]; [discriminate Habs|].
    assert (same_configuration (self s) (self s2)) as Hcfg
      by (destruct Hcfg1 as (? & ? & ?), Hcfg2 as (? & ? & ?);
          repeat split; congruence).
    destruct Hc2 as [Hc2 | [Hc2 | Hc2]]; rewrite Hc1 in Hc2;
      eexists; (split; [exact Hc2|]); (split; [|exact Hcfg]).
    + left. reflexivity.
    + right. right. left. exists 0%nat. reflexivity.
    + right. left. reflexivity.
  - (* connect never blocks, but the case is harmless *)
    destruct Hconn as [(Habs & _) | (_ & Hc2)]; [discriminate Habs|].
    assert (same_configuration (self s) (self s2)) as Hcfg
      by (destruct Hcfg1 as (? & ? & ?), Hcfg2 as (? & ? & ?);
          repeat split; congruence).
    destruct Hc2 as [Hc2 | [Hc2 | Hc2]]; rewrite Hc1 in Hc2;
      eexists; (split; [exact Hc2|]); (split; [|exact Hcfg]).
    + left. reflexivity.
    + right. right. left. exists 0%nat. reflexivity.
    + right. left. reflexivity.
Qed.

Lemma subsequence_In {A : Type} (xs ys : list A) (x : A) :
  subsequence xs ys -> In x xs -> In x ys.
Proof.
  induction 1; simpl; intros Hin; auto.
  destruct Hin as [<- | Hin]; auto.
Qed.

Lemma firstn_In {A : Type} (k : nat) (xs : list A) (x : A) :
  In x (firstn k xs) -> In x xs.
Proof.
  revert xs. induction k as [|k IH]; intros [|y ys]; simpl; try tauto.
  intros [<- | Hin]; auto.
Qed.

Lemma trace_ok_within_registry (uuids : list string) (t : list op) (u : string) :
  trace_ok uuids t ->
  In (OpStartNotify u) t \/ In (OpStopNotify u) t ->
  In u uuids.
Proof.
  intros [-> | [-> | [[k ->] | (stops & disc & Hsub & Hdisc & ->)]]] Hin.
  - destruct Hin as [[] | []].
  - simpl in Hin. destruct Hin as [[E | [E | []]] | [E | [E | []]]];
      discriminate E.
  - simpl in Hin.
    destruct Hin as [[E | Hin] | [E | Hin]]; try discriminate E.
    + apply in_map_iff in Hin. destruct Hin as (u' & [= ->] & Hin).
      exact (firstn_In _ _ _ Hin).
    + apply in_map_iff in Hin. destruct Hin as (u' & E & _). discriminate E.
  - simpl in Hin. rewrite !in_app_iff, !in_map_iff in Hin.
    destruct Hin as [[E | [Hin | [Hin | Hin]]] | [E | [Hin | [Hin | Hin]]]];
      try discriminate E.
    + destruct Hin as (u' & [= ->] & Hin). exact Hin.
    + destruct Hin as (u' & E & _). discriminate E.
    + destruct Hdisc as [-> | ->]; [destruct Hin|].
      destruct Hin as [E | []]. discriminate E.
    + destruct Hin as (u' & E & _). discriminate E.
    + destruct Hin as (u' & [= ->] & Hin). exact (subsequence_In _ _ _ Hsub Hin).
    + destruct Hdisc as [-> | ->]; [destruct Hin|].
      destruct Hin as [E | []]. discriminate E.
Qed.

(** X15.  Whatever the transport, the advertisements and the signal, the
    client operations a run awaits follow one of four patterns: none; a
    connection alone or followed by subscriptions to a prefix of the
    registry; a connection and the disconnection of a failed validation; or
    a connection, subscriptions to the whole registry in order, then
    unsubscriptions from part of it in registry order and at most one
    disconnection.  So a run never subscribes to an identifier outside its
    registry, never unsubscribes before every subscription succeeded, and
    never changes the target name, the service or the registry. *)
Theorem run_trace_grammar {T : Type} `{Transport T} (s : state T)
    (adverts : list BLEDevice) (signal : option exn) :
  exists t,
    calls (snd (run adverts signal s)) = (calls s ++ t)%list
    /\ trace_ok (map snd (characteristic_uuids (self s))) t
    /\ (forall u, In (OpStartNotify u) t \/ In (OpStopNotify u) t ->
                  In u (map snd (characteristic_uuids (self s))))
    /\ same_configuration (self s) (self (snd (run adverts signal s))).
Proof.
  destruct (run_trace_shape s adverts signal) as (t & Hcalls & Hok & Hcfg).
  exists t. repeat split; try assumption; try apply Hcfg.
  intros u Hin. exact (trace_ok_within_registry _ _ _ Hok Hin).
Qed.

(** * Further properties of the notification handlers *)

(** X16.  When the decoder of a registered name returns an object on the
    payload, the full profile's handler prints exactly one line, carrying
    the name, the sender and that very object under the name's class, and
    returns; it changes nothing else: not the manager, not the link, and it
    awaits no client operation. *)
Theorem handler_prints_decoded_measurement {T : Type} (s : state T)
    (sender : Z) (data : list byte) :
  (forall c, AccelerationCharacteristic.read_from data = Ret c ->
     DataTransmission.notification_handler "acceleration" sender data s
     = (Ret tt,
        mkState (self s) (link s) (calls s)
          (out s ++ [Received "acceleration" sender (Some (Acceleration c))])))
  /\ (forall c, RotationCharacteristic.read_from data = Ret c ->
        DataTransmission.notification_handler "rotation" sender data s
        = (Ret tt,
           mkState (self s) (link s) (calls s)
             (out s ++ [Received "rotation" sender (Some (Rotation c))])))
  /\ (forall c, MagnetometerCharacteristic.read_from data = Ret c ->
        DataTransmission.notification_handler "magnetometer" sender data s
        = (Ret tt,
           mkState (self s) (link s) (calls s)
             (out s ++ [Received "magnetometer" sender (Some (Magnetometer c))])))
  /\ (forall c, TemperatureCharacteristic.read_from data = Ret c ->
        DataTransmission.notification_handler "temperature" sender data s
        = (Ret tt,
           mkState (self s) (link s) (calls s)
             (out s ++ [Received "temperature" sender (Some (Temperature c))]))).
Proof.
  split; [|split; [|split]]; intros c Hc;
    unfold DataTransmission.notification_handler, DataTransmission.decode,
      bind, lift, print;
    cbn [String.eqb Ascii.eqb Bool.eqb];
    rewrite Hc; reflexivity.
Qed.

Lemma handler_prints_decoded_measurement_witness :
  let s := streaming DataTransmission.CHARACTERISTIC_UUIDS
             (Scripted.healthy full_uuids) in
  DataTransmission.notification_handler "acceleration" 7 triple_buffer s
  = (Ret tt,
     mkState (self s) (link s) (calls s)
       [Received "acceleration" 7
          (Some (Acceleration
                   (AccelerationCharacteristic.mk
                      (PyFloat (S754_finite false 8388608 (-23)))
                      (PyFloat (S754_finite false 8388608 (-22)))
                      (PyFloat (S754_finite true 8388608 (-23))))))]).
Proof.
  intros s.
  destruct (handler_prints_decoded_measurement s 7 triple_buffer)
    as (Hacc & _).
  apply Hacc. reflexivity.
Defined.

Lemma timing_handler_accepts (now0 now1 sender : Z) (data : list byte)
    (g : BleSpeedTest.globals) :
  List.length data = 4%nat ->
  BleSpeedTest.notification_handler now0 now1 "time" sender data g
  = (Ret tt,
     BleSpeedTest.mkGlobals now1 false
       (BleSpeedTest.times g
          ++ [int_true_divide
                (now1 - (if BleSpeedTest.first_time g then now0
                         else BleSpeedTest.last_time g)) (10 ^ 6)])).
Proof.
  intros Hlen.
  repeat (destruct data as [|? data]; try discriminate Hlen).
  unfold BleSpeedTest.notification_handler.
  change (BleSpeedTest.decode "time" [b; b0; b1; b2])
    with (Ret (TimeCharacteristic.mk
                 (PyTuple [PyInt (Struct.le32 b b0 b1 b2)]))).
  destruct g as [lt [|] ts]; reflexivity.
Qed.

(** X17.  Fed with well-sized timestamp notifications, the timing-only
    handler appends one delay per notification: the float that Python's
    true division gives for the nanoseconds elapsed over 10^6.  The
    nanoseconds run from the second clock reading of the previous
    notification to that of the current one; only the very first delay of a
    session runs from the first clock reading of its own call, so it
    measures the decoding, not an arrival gap. *)
Theorem timing_handler_records_gaps (events : list notification)
    (g : BleSpeedTest.globals) :
  Forall (fun ev => List.length (payload ev) = 4%nat) events ->
  BleSpeedTest.times (deliver events g)
  = (BleSpeedTest.times g ++ gaps (first_reference g events) events)%list
  /\ List.length (BleSpeedTest.times (deliver events g))
     = (List.length (BleSpeedTest.times g) + List.length events)%nat.
Proof.
  intros Hall.
  assert (BleSpeedTest.times (deliver events g)
          = (BleSpeedTest.times g ++ gaps (first_reference g events) events)%list)
    as Htimes.
  { revert g. induction Hall as [|ev rest Hev Hrest IH]; intros g.
    - simpl. now rewrite app_nil_r.
    - cbn [deliver gaps first_reference].
      rewrite (timing_handler_accepts _ _ _ _ g Hev). cbn [snd].
      rewrite IH. cbn [BleSpeedTest.times]. rewrite <- app_assoc.
      f_equal. cbn [app]. f_equal.
      destruct rest; reflexivity. }
  split; [exact Htimes|].
  rewrite Htimes, length_app. f_equal.
  clear. generalize (first_reference g events).
  induction events as [|ev rest IH]; intros z; [reflexivity|].
  cbn [gaps List.length]. now rewrite IH.
Qed.

(** 0.0005, 16.0 and 17.0 as binary64 floats. *)
Lemma timing_handler_records_gaps_witness :
  BleSpeedTest.times
    (deliver
       [mkNotification 1000 1500 [Byte.x01; Byte.x00; Byte.x00; Byte.x00];
        mkNotification 16000000 16001500 [Byte.x02; Byte.x00; Byte.x00; Byte.x00];
        mkNotification 33000000 33001500 [Byte.x03; Byte.x00; Byte.x00; Byte.x00]]
       (BleSpeedTest.mkGlobals 7 true []))
  = [S754_finite false 4611686018427388 (-63);
     S754_finite false 4503599627370496 (-48);
     S754_finite false 4785074604081152 (-48)].
Proof.
  apply (timing_handler_records_gaps
           [mkNotification 1000 1500 [Byte.x01; Byte.x00; Byte.x00; Byte.x00];
            mkNotification 16000000 16001500 [Byte.x02; Byte.x00; Byte.x00; Byte.x00];
            mkNotification 33000000 33001500 [Byte.x03; Byte.x00; Byte.x00; Byte.x00]]
           (BleSpeedTest.mkGlobals 7 true [])).
  repeat constructor.
Defined.

